(** * Host plugins of the pipeline: the Fusion library and the Maya validator

    A shallow embedding of

    - [openpype/hosts/fusion/api/lib.py]: [update_frame_range],
      [switch_item], [maintained_selection] and [get_frame_path];
    - [config/plugins/maya/publish/validate_instance_has_members.py]:
      [ValidateInstanceHasMembers.get_invalid] and [process].

    Python [str] is [string], a dict is a [gmap], a set of host objects a
    [gset]; a Python exception is a constructor of [exn], and code that can
    raise returns a [result]. *)

From Stdlib Require Import ZArith Ascii String.
From stdpp Require Import base option gmap strings list fin_maps.

(** ** Python values, exceptions and results *)

(** The Python values that the attribute mappings of the plugins hold. *)
#[warnings="-register-all"] Inductive pyval :=
| PNone
| PBool (b : bool)
| PInt (z : Z)
| PStr (s : string)
| PList (l : list pyval).

(** Python's truth value testing ([bool(v)]) on those values. *)
Definition truthy (v : pyval) : bool :=
  match v with
  | PNone => false
  | PBool b => b
  | PInt z => negb (z =? 0)%Z
  | PStr s => negb (String.eqb s "")
  | PList l => match l with [] => false | _ :: _ => true end
  end.

(** [fmt template args] stands for [template.format( *args )] or
    [template % args]: the template and its arguments, not rendered. *)
Inductive message :=
| Fmt (template : string) (args : list pyval).

Inductive exn :=
| ValueError (msg : string)
| RuntimeError (msg : message)
| AssertionError (msg : message)
| TypeError
| KeyError (key : string).

Inductive result (A : Type) :=
| Ok (a : A)
| Raise (e : exn).
Arguments Ok {A} a.
Arguments Raise {A} e.

(** ** [os.path.splitext] and the [re] pattern of [get_frame_path] *)

Module Path.

(** The two flavours of [os.path]: [posixpath] has [sep = "/"] and no
    [altsep], [ntpath] has [sep = "\"] and [altsep = "/"]. *)
Inductive flavour := Posix | Nt.

Definition sep (os : flavour) : ascii :=
  match os with Posix => "/"%char | Nt => "\"%char end.

Definition altsep (os : flavour) : option ascii :=
  match os with Posix => None | Nt => Some "/"%char end.

Definition extsep : ascii := "."%char.

(** [rfind_from c s i]: the highest index of [c] in [s], counting the first
    character of [s] as index [i]; [-1] when [c] does not occur. *)
Fixpoint rfind_from (c : ascii) (s : string) (i : Z) : Z :=
  match s with
  | EmptyString => (-1)%Z
  | String a s' =>
      let r := rfind_from c s' (i + 1)%Z in
      if (0 <=? r)%Z then r
      else if Ascii.eqb a c then i else (-1)%Z
  end.

(** [p.rfind(c)] *)
Definition rfind (c : ascii) (p : string) : Z := rfind_from c p 0%Z.

(** [p[:i]] and [p[i:]] for [0 <= i]. *)
Definition slice_to (p : string) (i : Z) : string :=
  substring 0 (Z.to_nat i) p.

Definition slice_from (p : string) (i : Z) : string :=
  substring (Z.to_nat i) (String.length p - Z.to_nat i) p.

(** The [while filenameIndex < dotIndex] loop of [genericpath._splitext]:
    [true] as soon as a character of [p] at an index in
    [filenameIndex .. dotIndex - 1] differs from [extsep]; [n] bounds the
    number of iterations left. *)
Fixpoint skip_leading_dots (p : string) (filenameIndex : Z) (n : nat) : bool :=
  match n with
  | O => false
  | S n' =>
      match String.get (Z.to_nat filenameIndex) p with
      | Some a =>
          if negb (Ascii.eqb a extsep) then true
          else skip_leading_dots p (filenameIndex + 1)%Z n'
      | None => true
      end
  end.

(** [genericpath._splitext(p, sep, altsep, extsep)], which both
    [posixpath.splitext] and [ntpath.splitext] call. *)
Definition splitext (os : flavour) (p : string) : string * string :=
  let sepIndex := rfind (sep os) p in
  let sepIndex :=
    match altsep os with
    | Some a => Z.max sepIndex (rfind a p)
    | None => sepIndex
    end in
  let dotIndex := rfind extsep p in
  if (sepIndex <? dotIndex)%Z
     && skip_leading_dots p (sepIndex + 1)%Z (Z.to_nat (dotIndex - (sepIndex + 1)))
  then (slice_to p dotIndex, slice_from p dotIndex)
  else (p, "").

End Path.

Module Re.

(** The part of Python's [re] syntax that the pattern of [get_frame_path]
    uses: a character class under a quantifier, possibly inside the
    capturing group, and the [$] anchor. A pattern is a sequence of items. *)
Inductive quant := Once | LazyStar | GreedyPlus.

Inductive item :=
| Chars (cls : ascii -> bool) (q : quant) (captured : bool)
| Dollar.

Definition pattern := list item.

(** [.] without [re.DOTALL]: any character except a line feed. *)
Definition dot (c : ascii) : bool := negb (Ascii.eqb c "010"%char).

(** [[0-9]] *)
Definition digit (c : ascii) : bool :=
  (48 <=? nat_of_ascii c)%nat && (nat_of_ascii c <=? 57)%nat.

(** [$] without [re.MULTILINE]: at the end of the string, or just before a
    line feed that ends the string. *)
Definition at_dollar (rest : string) : bool :=
  match rest with
  | EmptyString => true
  | String c EmptyString => Ascii.eqb c "010"%char
  | _ => false
  end.

Definition capture (captured : bool) (g : string) (c : ascii) : string :=
  if captured then g +:+ String c EmptyString else g.

(** The backtracking matcher: [run p rest g] matches the items [p] at the
    front of [rest], [g] being what group 1 has captured so far, and returns
    the content of group 1 for the first match that the backtracking search
    finds. A lazy star tries the rest of the pattern before it takes one
    more character; a greedy plus takes one more character first. *)
Fixpoint run (p : pattern) : string -> string -> option string :=
  match p with
  | [] => fun _ g => Some g
  | Dollar :: p' => fun rest g => if at_dollar rest then run p' rest g else None
  | Chars cls Once cap :: p' =>
      fun rest g =>
        match rest with
        | String c rest' => if cls c then run p' rest' (capture cap g c) else None
        | EmptyString => None
        end
  | Chars cls LazyStar cap :: p' =>
      fix lazy (rest g : string) {struct rest} : option string :=
        match run p' rest g with
        | Some r => Some r
        | None =>
            match rest with
            | String c rest' => if cls c then lazy rest' (capture cap g c) else None
            | EmptyString => None
            end
        end
  | Chars cls GreedyPlus cap :: p' =>
      fix greedy (rest g : string) {struct rest} : option string :=
        match rest with
        | String c rest' =>
            if cls c then
              match greedy rest' (capture cap g c) with
              | Some r => Some r
              | None => run p' rest' (capture cap g c)
              end
            else None
        | EmptyString => None
        end
  end.

(** [re.match(p, s)]: the pattern must match at the start of [s]; the
    result is [match.group(1)], [None] when there is no match. *)
Definition re_match (p : pattern) (s : string) : option string := run p s "".

End Re.

(** ** [get_frame_path] *)

(** The pattern ['.*?([0-9]+)$']. *)
Definition final_number_group : Re.pattern :=
  [Re.Chars Re.dot Re.LazyStar false; Re.Chars Re.digit Re.GreedyPlus true; Re.Dollar].

(** [s[:-n]]: for [n = 0] this is [s[:0]], the empty string; otherwise the
    string without its last [n] characters (empty when [s] is shorter). *)
Definition drop_last (s : string) (n : nat) : string :=
  match n with
  | O => ""
  | S _ => substring 0 (String.length s - n) s
  end.

(** [os] tells which [os.path] the interpreter runs with. *)
Definition get_frame_path (os : Path.flavour) (path : string)
  : string * nat * string :=
  let '(filename, ext) := Path.splitext os path in
  match Re.re_match final_number_group filename with
  | Some group1 =>
      let padding := String.length group1 in
      (drop_last filename padding, padding, ext)
  | None => (filename, 4, ext)
  end.

(** ** A state and error monad for code that mutates the host and may raise *)

Definition M (S A : Type) : Type := S -> result A * S.

Definition ret {S A} (a : A) : M S A := fun s => (Ok a, s).

Definition raise {S A} (e : exn) : M S A := fun s => (Raise e, s).

Definition bind {S A B} (m : M S A) (k : A -> M S B) : M S B :=
  fun s =>
    match m s with
    | (Ok a, s') => k a s'
    | (Raise e, s') => (Raise e, s')
    end.

#[global] Instance M_ret {S} : MRet (M S) := @ret S.
#[global] Instance M_bind {S} : MBind (M S) := fun A B k m => bind m k.

#[global] Instance result_ret : MRet result := @Ok.
#[global] Instance result_bind : MBind result :=
  fun A B k r => match r with Ok a => k a | Raise e => Raise e end.

(** A computation that cannot raise, lifted from a state transformer. *)
Definition modify {S} (f : S -> S) : M S unit := fun s => (Ok tt, f s).

(** [try: body finally: cleanup], for a [cleanup] that cannot raise: it
    runs on both exits and the outcome of [body] stands. *)
Definition try_finally {S A} (body : M S A) (cleanup : S -> S) : M S A :=
  fun s => let '(r, s') := body s in (r, cleanup s').

(** A dict with string keys, and [d[key]] on it. *)
Abbreviation dict := (gmap string pyval).

Definition getitem (d : dict) (key : string) : result pyval :=
  match d !! key with
  | Some v => Ok v
  | None => Raise (KeyError key)
  end.

(** [d[key]] where [d] is a dict or [None]: subscripting [None] is a
    [TypeError]. *)
Definition subscript (d : option dict) (key : string) : result pyval :=
  match d with
  | Some d => getitem d key
  | None => Raise TypeError
  end.

Definition lift {S A} (r : result A) : M S A := fun s => (r, s).

(** Truth value of a dict or [None]: [None] and the empty dict are false. *)
Definition truthy_doc (d : option dict) : bool :=
  match d with
  | Some d => negb (bool_decide (d = ∅))
  | None => false
  end.

(** ** [ValidateInstanceHasMembers] *)

(** A pyblish instance: [instance.data] is its attribute mapping. *)
Record Instance := { data : dict }.

Module ValidateInstanceHasMembers.

Definition get_invalid (instance : Instance) : result (list pyval) :=
  let invalid : list pyval := [] in
  setMembers ← getitem (data instance) "setMembers";
  if negb (truthy setMembers) then
    objectset_name ← getitem (data instance) "name";
    mret (invalid ++ [objectset_name])%list
  else mret invalid.

(** [process] returns [None] unless it raises. *)
Definition process (instance : Instance) : result pyval :=
  invalid ← get_invalid instance;
  if truthy (PList invalid) then
    Raise (RuntimeError (Fmt "Empty instances found: {0}" [PList invalid]))
  else mret PNone.

End ValidateInstanceHasMembers.

(** ** The Fusion host *)

Definition tool := nat.
Definition comp_id := nat.

(** What the library reads and writes of a Fusion composition: its
    attributes ([SetAttrs]), the outstanding [Lock] calls, the open undo
    chunks, and the tools selected in its flow view. *)
Record Comp := {
  attrs : gmap string Z;
  locks : nat;
  undo_depth : nat;
  selection : gset tool
}.

(** The running Fusion: its compositions and the one that is current. *)
Record fusion := {
  comps : gmap comp_id Comp;
  current_comp : comp_id
}.

Definition on_comp (c : comp_id) (f : Comp -> Comp) (h : fusion) : fusion :=
  {| comps := alter f c (comps h); current_comp := current_comp h |}.

(** [comp.SetAttrs(new)]: the attributes named in [new] take their new
    values, the others keep theirs. *)
Definition SetAttrs (new : gmap string Z) (co : Comp) : Comp :=
  {| attrs := new ∪ attrs co; locks := locks co;
     undo_depth := undo_depth co; selection := selection co |}.

(** [flow.Select()]: no argument clears the selection. *)
Definition Select_none (co : Comp) : Comp :=
  {| attrs := attrs co; locks := locks co;
     undo_depth := undo_depth co; selection := ∅ |}.

(** [flow.Select(tool, True)]: adds [tool] to the selection. *)
Definition Select (t : tool) (co : Comp) : Comp :=
  {| attrs := attrs co; locks := locks co;
     undo_depth := undo_depth co; selection := {[t]} ∪ selection co |}.

(** [comp.GetToolList(True).values()]: the selected tools. *)
Definition GetToolList_selected (co : Comp) : list tool :=
  elements (selection co).

(** Modelled from the spec: [get_current_comp] of the [pipeline] module of
    the Fusion host, which is not among the sources; it returns the
    composition that is current in the running Fusion. *)
Definition get_current_comp (h : fusion) : comp_id := current_comp h.

Definition enter_chunk (co : Comp) : Comp :=
  {| attrs := attrs co; locks := S (locks co);
     undo_depth := S (undo_depth co); selection := selection co |}.

Definition exit_chunk (co : Comp) : Comp :=
  {| attrs := attrs co; locks := pred (locks co);
     undo_depth := pred (undo_depth co); selection := selection co |}.

(** Modelled from the spec: [comp_lock_and_undo_chunk] of the [pipeline]
    module of the Fusion host, which is not among the sources: a scoped
    host transaction that locks the composition and opens an undo chunk,
    runs the body, and unlocks and closes the chunk on every exit. *)
Definition comp_lock_and_undo_chunk (c : comp_id) (body : fusion -> fusion)
  : fusion -> fusion :=
  fun h => on_comp c exit_chunk (body (on_comp c enter_chunk h)).

(** ** [update_frame_range] *)

(** [handle or 0], for a handle that is a number or [None]. *)
Definition or_zero (handle : option Z) : Z :=
  match handle with
  | Some z => if (z =? 0)%Z then 0%Z else z
  | None => 0%Z
  end.

(** The [attrs] dict that [update_frame_range] builds. *)
Definition frame_range_attrs (start end_ : Z) (set_render_range : bool)
    (handle_start handle_end : option Z) : gmap string Z :=
  let handle_start := or_zero handle_start in
  let handle_end := or_zero handle_end in
  let attrs : gmap string Z :=
    <["COMPN_GlobalStart" := (start - handle_start)%Z]>
      (<["COMPN_GlobalEnd" := (end_ + handle_end)%Z]> ∅) in
  if set_render_range then
    (<["COMPN_RenderStart" := start]> (<["COMPN_RenderEnd" := end_]> ∅)) ∪ attrs
  else attrs.

Definition update_frame_range (start end_ : Z) (comp : option comp_id)
    (set_render_range : bool) (handle_start handle_end : option Z)
  : fusion -> fusion :=
  fun h =>
    let comp := match comp with Some c => c | None => get_current_comp h end in
    let attrs := frame_range_attrs start end_ set_render_range
                   handle_start handle_end in
    comp_lock_and_undo_chunk comp (on_comp comp (SetAttrs attrs)) h.

(** ** [maintained_selection] *)

(** The [finally] block: clear the selection of the flow view of [comp],
    then select again every tool of [previous_selection]. *)
Definition restore_selection (comp : comp_id) (previous_selection : list tool)
  : fusion -> fusion :=
  fun h =>
    let h := on_comp comp Select_none h in
    match previous_selection with
    | [] => h
    | _ :: _ => foldl (fun h tool => on_comp comp (Select tool) h) h previous_selection
    end.

(** [with maintained_selection(): body] *)
Definition maintained_selection {A} (body : M fusion A) : M fusion A :=
  fun h =>
    let comp := get_current_comp h in
    let previous_selection :=
      match comps h !! comp with
      | Some co => GetToolList_selected co
      | None => []
      end in
    try_finally body (restore_selection comp previous_selection) h.

(** ** [switch_item] *)

(** The functions that [switch_item] imports from [openpype.client] and
    [openpype.pipeline], which are not among the sources, as parameters:
    each lookup is a keyed read that returns a document or [None];
    [get_representation_parents] returns the tuple
    [(version, subset, asset, project)] or [None]; [switch_container] gives
    the container as the host has it after the switch. *)
Record Client := {
  active_project : pyval;
  get_representation_by_id : pyval -> pyval -> option dict;
  get_representation_parents :
    option dict -> option (option dict * option dict * option dict * option dict);
  get_asset_by_name : pyval -> pyval -> option dict;
  get_subset_by_name : pyval -> pyval -> pyval -> option dict;
  get_last_version_by_subset_id : pyval -> pyval -> option dict;
  get_representation_by_name : pyval -> pyval -> pyval -> option dict;
  switch_container : dict -> dict -> dict
}.

(** The calls that [switch_item] makes, as they are logged. *)
Inductive call :=
| ActiveProject
| GetRepresentationById (project_name repre_id : pyval)
| GetRepresentationParents (representation : option dict)
| GetAssetByName (project_name asset_name : pyval)
| GetSubsetByName (project_name subset_name asset_id : pyval)
| GetLastVersionBySubsetId (project_name subset_id : pyval)
| GetRepresentationByName (project_name representation_name version_id : pyval)
| SwitchContainer (representation : dict).

(** What [switch_item] acts on: the container that it is given, and the log
    of the calls made so far, oldest first. *)
Record world := {
  container : dict;
  calls : list call
}.

Definition log (c : call) : M world unit :=
  modify (fun w => {| container := container w; calls := (calls w ++ [c])%list |}).

Definition falsy (x : pyval) : bool := negb (truthy x).

(** [x is None] *)
Definition is_None (x : pyval) : bool :=
  match x with PNone => true | _ => false end.

(** [assert doc, msg] for the result of a lookup; past it [doc] is a
    dict. *)
Definition assert_doc (doc : option dict) (msg : message) : M world dict :=
  match doc with
  | Some d => if truthy_doc doc then ret d else raise (AssertionError msg)
  | None => raise (AssertionError msg)
  end.

Section SwitchItem.

Context (cl : Client).

Definition call_active_project : M world pyval :=
  _ ← log ActiveProject; mret (active_project cl).

Definition call_get_representation_by_id (project_name repre_id : pyval)
  : M world (option dict) :=
  _ ← log (GetRepresentationById project_name repre_id);
  mret (get_representation_by_id cl project_name repre_id).

Definition call_get_representation_parents (representation : option dict)
  : M world (option (option dict * option dict * option dict * option dict)) :=
  _ ← log (GetRepresentationParents representation);
  mret (get_representation_parents cl representation).

Definition call_get_asset_by_name (project_name asset_name : pyval)
  : M world (option dict) :=
  _ ← log (GetAssetByName project_name asset_name);
  mret (get_asset_by_name cl project_name asset_name).

Definition call_get_subset_by_name (project_name subset_name asset_id : pyval)
  : M world (option dict) :=
  _ ← log (GetSubsetByName project_name subset_name asset_id);
  mret (get_subset_by_name cl project_name subset_name asset_id).

Definition call_get_last_version_by_subset_id (project_name subset_id : pyval)
  : M world (option dict) :=
  _ ← log (GetLastVersionBySubsetId project_name subset_id);
  mret (get_last_version_by_subset_id cl project_name subset_id).

Definition call_get_representation_by_name
    (project_name representation_name version_id : pyval)
  : M world (option dict) :=
  _ ← log (GetRepresentationByName project_name representation_name version_id);
  mret (get_representation_by_name cl project_name representation_name version_id).

Definition call_switch_container (representation : dict) : M world unit :=
  modify (fun w =>
    {| container := switch_container cl (container w) representation;
       calls := (calls w ++ [SwitchContainer representation])%list |}).

(** [container[key]] *)
Definition container_getitem (key : string) : M world pyval :=
  fun w => (getitem (container w) key, w).

(** The block under [if any(not x for x in [...])]: the names that are
    [None] are taken from the documents of the current representation of
    the container. *)
Definition collect_names (project_name asset_name subset_name representation_name : pyval)
  : M world (pyval * pyval * pyval) :=
  if existsb falsy [asset_name; subset_name; representation_name] then
    repre_id ← container_getitem "representation";
    representation ← call_get_representation_by_id project_name repre_id;
    repre_parent_docs ← call_get_representation_parents representation;
    let '(version, subset, asset) :=
      match repre_parent_docs with
      | Some (version, subset, asset, _) => (version, subset, asset)
      | None => (None, None, None)
      end in
    asset_name ←
      (if is_None asset_name then lift (subscript asset "name")
       else mret asset_name);
    subset_name ←
      (if is_None subset_name then lift (subscript subset "name")
       else mret subset_name);
    representation_name ←
      (if is_None representation_name then lift (subscript representation "name")
       else mret representation_name);
    mret (asset_name, subset_name, representation_name)
  else mret (asset_name, subset_name, representation_name).

(** The part under [# Find the new one]. *)
Definition find_new_one (project_name asset_name subset_name representation_name : pyval)
  : M world dict :=
  asset ← call_get_asset_by_name project_name asset_name;
  asset ← assert_doc asset
    (Fmt "Could not find asset in the database with the name '%s'" [asset_name]);
  asset_id ← lift (getitem asset "_id");
  subset ← call_get_subset_by_name project_name subset_name asset_id;
  subset ← assert_doc subset
    (Fmt "Could not find subset in the database with the name '%s'" [subset_name]);
  subset_id ← lift (getitem subset "_id");
  version ← call_get_last_version_by_subset_id project_name subset_id;
  version ← assert_doc version
    (Fmt "Could not find a version for {}.{}" [asset_name; subset_name]);
  version_id ← lift (getitem version "_id");
  representation ←
    call_get_representation_by_name project_name representation_name version_id;
  representation ← assert_doc representation
    (Fmt "Could not find representation in the database with the name '%s'"
         [representation_name]);
  _ ← call_switch_container representation;
  mret representation.

Definition switch_item (asset_name subset_name representation_name : pyval)
  : M world dict :=
  if forallb falsy [asset_name; subset_name; representation_name] then
    raise (ValueError "Must have at least one change provided to switch.")
  else
    project_name ← call_active_project;
    '(asset_name, subset_name, representation_name) ←
      collect_names project_name asset_name subset_name representation_name;
    find_new_one project_name asset_name subset_name representation_name.

End SwitchItem.

(** ** Vocabulary of the statements *)

(** The line feed, as a string. *)
Definition LF : string := String "010"%char EmptyString.

Definition is_lf (c : ascii) : bool := Ascii.eqb c "010"%char.

Fixpoint all_chars (P : ascii -> bool) (s : string) : bool :=
  match s with
  | EmptyString => true
  | String c s' => P c && all_chars P s'
  end.

Fixpoint last_char (s : string) : option ascii :=
  match s with
  | EmptyString => None
  | String c EmptyString => Some c
  | String _ s' => last_char s'
  end.

(** [s] is not empty and its last character satisfies [P]. *)
Definition ends_with (P : ascii -> bool) (s : string) : bool :=
  match last_char s with
  | Some c => P c
  | None => false
  end.

(** The tail [([0-9]+)$] of the pattern of [get_frame_path]. *)
Definition number_at_end : Re.pattern :=
  [Re.Chars Re.digit Re.GreedyPlus true; Re.Dollar].

(** The world after the calls [cs] were logged on top of those of [w]. *)
Definition logged (w : world) (cs : list call) : world :=
  {| container := container w; calls := calls w ++ cs |}.

Definition is_switch (c : call) : bool :=
  match c with SwitchContainer _ => true | _ => false end.

(** The world is as [w] left it but for calls logged that are not
    [switch_container]: the container is the same. *)
Definition untouched (w w' : world) : Prop :=
  container w' = container w
  /\ exists new, calls w' = calls w ++ new
       /\ forallb (fun c => negb (is_switch c)) new = true.

(** The name that the lookups get for the argument [x]: the [name] of the
    document of the current representation when [x] is [None]. *)
Definition filled (x name : pyval) : pyval := if is_None x then name else x.

(** The two ways in which [switch_item a s r], in the world [w], comes to
    the names that it looks up and to the calls that it makes before the
    lookups: the three names are truthy and used as given, after
    [active_project]; or one is truthy, one is falsy, the current
    representation of the container and its parents are found, and every
    name that is [None] is the name of the document found. *)
Inductive names_resolved (cl : Client) (w : world) (a s r : pyval)
  : pyval -> pyval -> pyval -> list call -> Prop :=
| names_given :
    truthy a = true -> truthy s = true -> truthy r = true ->
    names_resolved cl w a s r a s r [ActiveProject]
| names_collected (repre_id : pyval) (repre : dict) (version : option dict)
    (subset asset : dict) (project : option dict) (an sn rn : pyval) :
    forallb falsy [a; s; r] = false ->
    existsb falsy [a; s; r] = true ->
    container w !! "representation" = Some repre_id ->
    get_representation_by_id cl (active_project cl) repre_id = Some repre ->
    get_representation_parents cl (Some repre) =
      Some (version, Some subset, Some asset, project) ->
    asset !! "name" = Some an -> subset !! "name" = Some sn ->
    repre !! "name" = Some rn ->
    names_resolved cl w a s r (filled a an) (filled s sn) (filled r rn)
      [ActiveProject;
       GetRepresentationById (active_project cl) repre_id;
       GetRepresentationParents (Some repre)].

Definition with_selection (co : Comp) (sel : gset tool) : Comp :=
  {| attrs := attrs co; locks := locks co;
     undo_depth := undo_depth co; selection := sel |}.

(** The running Fusion [h] with [co] as the state of composition [c]. *)
Definition with_comp (h : fusion) (c : comp_id) (co : Comp) : fusion :=
  {| comps := <[c := co]> (comps h); current_comp := current_comp h |}.

(** ** Sample data *)

Definition empty_instance : Instance :=
  {| data := <["name" := PStr "modelMain"]> (<["setMembers" := PList []]> ∅) |}.

Definition filled_instance : Instance :=
  {| data := <["name" := PStr "modelMain"]>
               (<["setMembers" := PList [PStr "pCube1"]]> ∅) |}.

Definition demo_comp : Comp :=
  {| attrs := <["COMPN_RenderStart" := 1%Z]> (<["COMPB_HiQ" := 1%Z]> ∅);
     locks := 0; undo_depth := 0; selection := {[3; 5]} |}.

Definition demo_fusion : fusion :=
  {| comps := <[7 := demo_comp]> ∅; current_comp := 7 |}.

(** A body that replaces the selection and then raises. *)
Definition demo_body : M fusion unit :=
  fun h => (Raise TypeError, on_comp 7 (Select 11) (on_comp 7 Select_none h)).

Definition is_str (s : string) (v : pyval) : bool :=
  match v with PStr s' => String.eqb s s' | _ => false end.

Definition doc_of (id name : string) : dict :=
  <["_id" := PStr id]> (<["name" := PStr name]> ∅).

(** A small store: the asset [hero] with the subsets [modelMain] and
    [rigMain]; only [modelMain] has a version, with the representations
    [abc] and [ma]. Switching a container sets its [representation]. *)
Definition demo_client : Client :=
  {| active_project := PStr "demo";
     get_representation_by_id _ id :=
       if is_str "r-abc" id then Some (doc_of "r-abc" "abc") else None;
     get_representation_parents repre :=
       match repre with
       | Some _ =>
           Some (Some (doc_of "v-3" "v003"), Some (doc_of "s-model" "modelMain"),
                 Some (doc_of "a-hero" "hero"), Some (doc_of "p-demo" "demo"))
       | None => None
       end;
     get_asset_by_name _ name :=
       if is_str "hero" name then Some (doc_of "a-hero" "hero") else None;
     get_subset_by_name _ name asset_id :=
       if is_str "a-hero" asset_id then
         if is_str "modelMain" name then Some (doc_of "s-model" "modelMain")
         else if is_str "rigMain" name then Some (doc_of "s-rig" "rigMain")
         else None
       else None;
     get_last_version_by_subset_id _ subset_id :=
       if is_str "s-model" subset_id then Some (doc_of "v-3" "v003") else None;
     get_representation_by_name _ name version_id :=
       if is_str "v-3" version_id then
         if is_str "abc" name then Some (doc_of "r-abc" "abc")
         else if is_str "ma" name then Some (doc_of "r-ma" "ma")
         else None
       else None;
     switch_container c repre :=
       match repre !! "_id" with
       | Some id => <["representation" := id]> c
       | None => c
       end |}.

(** A container that holds the representation [abc] of [hero]'s
    [modelMain]; no call made yet. *)
Definition demo_world : world :=
  {| container := <["representation" := PStr "r-abc"]>
                    (<["name" := PStr "hero_modelMain"]> ∅);
     calls := [] |}.

(** ** [set_asset_framerange] and [set_asset_resolution] *)

(** [d[key]] on a dict with values of any kind, or on [None]. *)
Definition lookup_item {V} (d : option (gmap string V)) (key : string) : result V :=
  match d with
  | Some d =>
      match d !! key with
      | Some v => Ok v
      | None => Raise (KeyError key)
      end
  | None => Raise TypeError
  end.

(** Of an asset document, the entries that are dicts (such as ["data"]),
    with values that are numbers or [None]. *)
Abbreviation asset_document := (gmap string (gmap string (option Z))).

(** [asset_doc["data"][field]], where [asset_doc] is what
    [get_current_project_asset()] returned: a document or [None]. *)
Definition asset_data_field (asset_doc : option asset_document) (field : string)
  : result (option Z) :=
  data ← lookup_item asset_doc "data";
  lookup_item (Some data) field.

(** [get_current_project_asset] belongs to [openpype.pipeline.context_tools],
    which is not among the sources: the document that it returns is the
    parameter [asset_doc]. A [start] or [end_] that is [None] makes
    [start - handle_start] or [end + handle_end] a [TypeError], which
    [update_frame_range] raises before it locks the composition. *)
Definition set_asset_framerange (asset_doc : option asset_document) : M fusion pyval :=
  start ← lift (asset_data_field asset_doc "frameStart");
  end_ ← lift (asset_data_field asset_doc "frameEnd");
  handle_start ← lift (asset_data_field asset_doc "handleStart");
  handle_end ← lift (asset_data_field asset_doc "handleEnd");
  match start, end_ with
  | Some start, Some end_ =>
      _ ← modify (update_frame_range start end_ None true handle_start handle_end);
      mret PNone
  | _, _ => raise TypeError
  end.

(** The running Fusion with the preferences of its compositions and the
    lines printed so far, oldest first. *)
Record studio := {
  running : fusion;
  prefs : gmap comp_id (gmap string (option Z));
  printed : list message
}.

(** [comp.SetPrefs(new)]: the preferences named in [new] take their new
    values, the others keep theirs. *)
Definition SetPrefs (c : comp_id) (new : gmap string (option Z)) (st : studio) : studio :=
  {| running := running st;
     prefs := <[c := new ∪ default ∅ (prefs st !! c)]> (prefs st);
     printed := printed st |}.

Definition print (line : message) (st : studio) : studio :=
  {| running := running st; prefs := prefs st; printed := printed st ++ [line] |}.

(** A number or [None] as a Python value. *)
Definition py_number (v : option Z) : pyval :=
  match v with Some z => PInt z | None => PNone end.

Definition set_asset_resolution (asset_doc : option asset_document) : M studio pyval :=
  width ← lift (asset_data_field asset_doc "resolutionWidth");
  height ← lift (asset_data_field asset_doc "resolutionHeight");
  comp ← (fun st => (Ok (get_current_comp (running st)), st));
  _ ← modify (print (Fmt "Setting comp frame format resolution to {}x{}"
                         [py_number width; py_number height]));
  _ ← modify (SetPrefs comp
                (<["Comp.FrameFormat.Width" := width]>
                   (<["Comp.FrameFormat.Height" := height]> ∅)));
  mret PNone.

(** ** [get_additional_data] *)

Section AdditionalData.

(** The type of the colour channels, floats in the host; nothing is
    computed with them. *)
Context {F : Type}.

(** Of a Fusion tool, its [TileColor]: [None] or a table of channels. *)
Record FusionTool := { TileColor : option (gmap string F) }.

(** [QtGui.QColor.fromRgbF(r, g, b)] *)
Inductive QColor := fromRgbF (r g b : F).

(** Of the container, the entries that are tools (such as ["_tool"]). *)
Definition get_additional_data (container : gmap string FusionTool)
  : result (gmap string QColor) :=
  tool ← lookup_item (Some container) "_tool";
  let tile_color := TileColor tool in
  match tile_color with
  | None => mret ∅
  | Some _ =>
      r ← lookup_item tile_color "R";
      g ← lookup_item tile_color "G";
      b ← lookup_item tile_color "B";
      mret (<["color" := fromRgbF r g b]> ∅)
  end.

End AdditionalData.

(** ** [CreateModel.process] *)

Module CreateModel.

Definition coll := nat.
Definition obj := nat.

(** The calls that [process] makes on Blender and on the Avalon library,
    as they are logged. *)
Inductive bcall :=
| CollectionsNew (name : pyval)
| ChildrenLink (collection : coll)
| Imprint (collection : coll) (data : dict)
| ObjectsLink (collection : coll) (o : obj).

(** What [process] acts on: [self.data], the number of collections that
    [bpy.data.collections.new] has made, which names the next one, and the
    log of the calls, oldest first. *)
Record blender := {
  self_data : dict;
  made : nat;
  bcalls : list bcall
}.

(** What [process] reads and does not change: [asset_name] of
    [pype.blender.plugin], which is not among the sources, [api.Session],
    [self.options] and the objects that [lib.get_selection()] returns. *)
Record Env := {
  asset_name : pyval -> pyval -> pyval;
  Session : dict;
  options : option dict;
  get_selection : list obj
}.

Definition blog (c : bcall) : M blender unit :=
  modify (fun w => {| self_data := self_data w; made := made w;
                      bcalls := bcalls w ++ [c] |}).

(** [self.data[key]] *)
Definition self_getitem (key : string) : M blender pyval :=
  fun w => (getitem (self_data w) key, w).

(** [self.data[key] = v] *)
Definition self_setitem (key : string) (v : pyval) : M blender unit :=
  modify (fun w => {| self_data := <[key := v]> (self_data w); made := made w;
                      bcalls := bcalls w |}).

(** [bpy.data.collections.new(name=name)] *)
Definition collections_new (name : pyval) : M blender coll :=
  fun w => (Ok (made w),
            {| self_data := self_data w; made := S (made w);
               bcalls := bcalls w ++ [CollectionsNew name] |}).

(** [d.get(key)]: the value, [None] when the key is absent. *)
Definition dict_get (d : dict) (key : string) : pyval :=
  match d !! key with Some v => v | None => PNone end.

(** [options or {}] *)
Definition or_empty (options : option dict) : dict :=
  match options with
  | Some d => if truthy_doc options then d else ∅
  | None => ∅
  end.

(** [for x in l: body(x)] *)
Fixpoint for_each {S A} (l : list A) (body : A -> M S unit) : M S unit :=
  match l with
  | [] => mret tt
  | x :: l' => _ ← body x; for_each l' body
  end.

Definition process (env : Env) : M blender coll :=
  asset ← self_getitem "asset";
  subset ← self_getitem "subset";
  let name := asset_name env asset subset in
  collection ← collections_new name;
  _ ← blog (ChildrenLink collection);
  _ ← self_setitem "task" (dict_get (Session env) "AVALON_TASK");
  _ ← (fun w => blog (Imprint collection (self_data w)) w);
  _ ← (if truthy (dict_get (or_empty (options env)) "useSelection") then
         for_each (get_selection env) (fun o => blog (ObjectsLink collection o))
       else mret tt);
  mret collection.

End CreateModel.

(** ** Vocabulary of the further statements *)

(** The final run of digits of [s] and what stands before it:
    [head_and_number s = (h, d)] with [s = h +:+ d], [d] made of digits
    and [h] not ending with one. *)
Fixpoint head_and_number (s : string) : string * string :=
  match s with
  | EmptyString => (EmptyString, EmptyString)
  | String c s' =>
      let '(h, d) := head_and_number s' in
      match h with
      | EmptyString =>
          if Re.digit c then (EmptyString, String c d)
          else (String c EmptyString, d)
      | String _ _ => (String c h, d)
      end
  end.

(** The asset document of a shot of 100 frames with handles of 8. *)
Definition demo_asset_doc : asset_document :=
  <["data" := <["frameStart" := Some 1001%Z]> (<["frameEnd" := Some 1100%Z]>
                (<["handleStart" := Some 8%Z]> (<["handleEnd" := None]>
                (<["resolutionWidth" := Some 1920%Z]>
                (<["resolutionHeight" := Some 1080%Z]> ∅)))))]> ∅.

Definition demo_studio : studio :=
  {| running := demo_fusion;
     prefs := <[7 := <["Comp.FrameFormat.Width" := Some 1280%Z]>
                       (<["Comp.FrameFormat.Rate" := Some 25%Z]> ∅)]> ∅;
     printed := [] |}.

Definition demo_env : CreateModel.Env :=
  {| CreateModel.asset_name a s := PList [a; PStr "_"; s];
     CreateModel.Session := <["AVALON_TASK" := PStr "modeling"]> ∅;
     CreateModel.options := Some (<["useSelection" := PBool true]> ∅);
     CreateModel.get_selection := [4; 9] |}.

Definition demo_blender : CreateModel.blender :=
  {| CreateModel.self_data :=
       <["asset" := PStr "hero"]> (<["subset" := PStr "modelMain"]>
         (<["task" := PStr "stale"]> ∅));
     CreateModel.made := 2;
     CreateModel.bcalls := [] |}.

(** ** Further sample data *)

Definition unset_asset_data : gmap string (option Z) :=
  <["frameStart" := None]> (<["frameEnd" := Some 5%Z]>
    (<["handleStart" := None]> (<["handleEnd" := None]> ∅))).

Definition unset_asset_doc : asset_document := <["data" := unset_asset_data]> ∅.

Definition nameless_client : Client :=
  {| active_project := PStr "demo";
     get_representation_by_id := get_representation_by_id demo_client;
     get_representation_parents := get_representation_parents demo_client;
     get_asset_by_name _ _ := Some (<["name" := PStr "hero"]> ∅);
     get_subset_by_name := get_subset_by_name demo_client;
     get_last_version_by_subset_id := get_last_version_by_subset_id demo_client;
     get_representation_by_name := get_representation_by_name demo_client;
     switch_container := switch_container demo_client |}.

Definition greenless_tile : gmap string Z := <["R" := 1%Z]> (<["B" := 3%Z]> ∅).

Definition greenless_container : gmap string (@FusionTool Z) :=
  <["_tool" := {| TileColor := Some greenless_tile |}]> ∅.


Definition heightless_asset_data : gmap string (option Z) :=
  <["resolutionWidth" := Some 1920%Z]> ∅.

Definition heightless_asset_doc : asset_document :=
  <["data" := heightless_asset_data]> ∅.

(** * Properties *)

(** ** The pattern of [get_frame_path] *)

Section FinalNumberGroup.

Import Re.

Lemma run_greedy_cons cls cap p c rest g :
  run (Chars cls GreedyPlus cap :: p) (String c rest) g =
  if cls c then
    match run (Chars cls GreedyPlus cap :: p) rest (capture cap g c) with
    | Some r => Some r
    | None => run p rest (capture cap g c)
    end
  else None.
Proof. reflexivity. Qed.

Lemma run_lazy_unfold cls cap p rest g :
  run (Chars cls LazyStar cap :: p) rest g =
  match run p rest g with
  | Some r => Some r
  | None =>
      match rest with
      | String c rest' =>
          if cls c then run (Chars cls LazyStar cap :: p) rest' (capture cap g c)
          else None
      | EmptyString => None
      end
  end.
Proof. destruct rest; reflexivity. Qed.

Lemma append_cons (c : ascii) (s d : string) :
  String c s +:+ d = String c (s +:+ d).
Proof. reflexivity. Qed.

Lemma append_nil (d : string) : "" +:+ d = d.
Proof. reflexivity. Qed.

Lemma ends_with_cons P c s :
  s <> "" -> ends_with P (String c s) = ends_with P s.
Proof. by destruct s. Qed.

Lemma append_nonempty_r (s d : string) : d <> "" -> s +:+ d <> "".
Proof. by destruct s, d. Qed.

Lemma at_dollar_append (s d : string) :
  s <> "" -> d <> "" -> at_dollar (s +:+ d) = false.
Proof.
  intros Hs Hd. destruct s as [|a s]; [done|]. rewrite append_cons.
  destruct s as [|b s]; [by destruct d | reflexivity].
Qed.

Lemma append_assoc_char (g : string) (c : ascii) (d : string) :
  (g +:+ String c "") +:+ d = g +:+ String c d.
Proof.
  induction g as [|a g IH]; [reflexivity|].
  rewrite !append_cons. by f_equal.
Qed.

(** On a non-empty run of digits that ends the string, [[0-9]+$] captures
    the whole run. *)
Lemma number_at_end_digits d g :
  d <> "" -> all_chars digit d = true ->
  run number_at_end d g = Some (g +:+ d).
Proof.
  revert g. induction d as [|c d IH]; intros g Hne Hd; [congruence|].
  simpl in Hd. apply andb_true_iff in Hd as [Hc Hd].
  unfold number_at_end in *. rewrite run_greedy_cons, Hc.
  destruct d as [|c' d].
  - reflexivity.
  - rewrite IH by (done || congruence). simpl capture.
    by rewrite append_assoc_char.
Qed.

(** [[0-9]+$] does not match where a character that is not a digit stands
    before the end. *)
Lemma number_at_end_blocked h d g :
  h <> "" -> ends_with digit h = false -> d <> "" ->
  run number_at_end (h +:+ d) g = None.
Proof.
  revert g. induction h as [|c h IH]; intros g Hne Hend Hd; [congruence|].
  unfold number_at_end in *. rewrite append_cons, run_greedy_cons.
  destruct (digit c) eqn:Hc; [|reflexivity].
  destruct h as [|c' h].
  - unfold ends_with in Hend. simpl in Hend. congruence.
  - rewrite ends_with_cons in Hend by congruence.
    rewrite IH by (done || congruence).
    cbn [run]. by rewrite at_dollar_append.
Qed.

Lemma number_at_end_none s g :
  ends_with digit s = false -> ends_with is_lf s = false ->
  run number_at_end s g = None.
Proof.
  revert g. induction s as [|c s IH]; intros g Hd Hl; [reflexivity|].
  unfold number_at_end in *. rewrite run_greedy_cons.
  destruct (digit c) eqn:Hc; [|reflexivity].
  destruct s as [|c' s].
  - unfold ends_with in Hd. simpl in Hd. congruence.
  - rewrite ends_with_cons in Hd, Hl by congruence.
    rewrite IH by done. cbn [run].
    destruct s as [|c'' s]; [|reflexivity].
    unfold ends_with, is_lf in Hl. simpl in Hl. cbn [at_dollar]. by rewrite Hl.
Qed.

(** The lazy [.*?] walks over [h], where the rest of the pattern does not
    match, and stops at the digits. *)
Lemma final_number_group_found h d g :
  all_chars dot h = true -> ends_with digit h = false ->
  d <> "" -> all_chars digit d = true ->
  run final_number_group (h +:+ d) g = Some (g +:+ d).
Proof.
  revert g. induction h as [|c h IH]; intros g Hdot Hend Hne Hd.
  - unfold final_number_group. rewrite run_lazy_unfold.
    change (run _ ("" +:+ d) g) with (run number_at_end d g).
    by rewrite number_at_end_digits.
  - unfold final_number_group in *. rewrite run_lazy_unfold.
    change (run [Chars digit GreedyPlus true; Dollar]) with (run number_at_end).
    rewrite number_at_end_blocked by (done || congruence).
    simpl in Hdot. apply andb_true_iff in Hdot as [Hc Hdot].
    rewrite append_cons, Hc. simpl capture. apply IH; try done.
    destruct h; [reflexivity|]. by rewrite ends_with_cons in Hend.
Qed.

(** No match on a string that ends neither with a digit nor with a line
    feed. *)
Lemma final_number_group_none s g :
  ends_with digit s = false -> ends_with is_lf s = false ->
  run final_number_group s g = None.
Proof.
  revert g. induction s as [|c s IH]; intros g Hd Hl.
  - reflexivity.
  - unfold final_number_group in *. rewrite run_lazy_unfold.
    change (run [Chars digit GreedyPlus true; Dollar]) with (run number_at_end).
    rewrite number_at_end_none by done.
    destruct (dot c); [|reflexivity]. simpl capture.
    destruct s as [|c' s]; [reflexivity|].
    rewrite ends_with_cons in Hd, Hl by congruence. by apply IH.
Qed.

End FinalNumberGroup.

Lemma length_append (s d : string) :
  String.length (s +:+ d) = String.length s + String.length d.
Proof.
  induction s as [|c s IH]; [reflexivity|].
  rewrite append_cons. simpl. by rewrite IH.
Qed.

Lemma substring_append_l (s d : string) :
  substring 0 (String.length s) (s +:+ d) = s.
Proof.
  induction s as [|c s IH].
  - by destruct d.
  - rewrite append_cons. simpl. by rewrite IH.
Qed.

Lemma drop_last_append (h d : string) :
  d <> "" -> drop_last (h +:+ d) (String.length d) = h.
Proof.
  intros Hd. unfold drop_last.
  destruct (String.length d) eqn:Hl; [destruct d; simpl in *; congruence|].
  rewrite <- Hl, length_append.
  replace (String.length h + String.length d - String.length d) with (String.length h) by lia.
  apply substring_append_l.
Qed.

(** A stem [h +:+ d], where [d] is a non-empty run of digits and [h] has
    no line feed and does not end with a digit: the run is removed and its
    length is the padding. *)
Lemma get_frame_path_final_number os path h d ext :
  Path.splitext os path = (h +:+ d, ext) ->
  all_chars Re.dot h = true -> ends_with Re.digit h = false ->
  d <> "" -> all_chars Re.digit d = true ->
  get_frame_path os path = (h, String.length d, ext).
Proof.
  intros Hsplit Hdot Hend Hne Hd. unfold get_frame_path, Re.re_match.
  rewrite Hsplit, final_number_group_found by done.
  rewrite append_nil. by rewrite drop_last_append.
Qed.

(** A stem that ends neither with a digit nor with a line feed comes back
    whole, with the padding 4. *)
Lemma get_frame_path_no_number os path stem ext :
  Path.splitext os path = (stem, ext) ->
  ends_with Re.digit stem = false -> ends_with is_lf stem = false ->
  get_frame_path os path = (stem, 4, ext).
Proof.
  intros Hsplit Hd Hl. unfold get_frame_path, Re.re_match.
  by rewrite Hsplit, final_number_group_none.
Qed.

(** ** [get_frame_path] on concrete paths *)

Example splitext_leading_dots :
  Path.splitext Path.Posix "dir.v2/.hidden" = ("dir.v2/.hidden", "")
  /\ Path.splitext Path.Posix "..cache.tar.gz" = ("..cache.tar", ".gz").
Proof. split; reflexivity. Qed.

Example splitext_separators :
  Path.splitext Path.Nt "C:\shots.v2\take" = ("C:\shots.v2\take", "")
  /\ Path.splitext Path.Posix "C:\shots.v2\take" = ("C:\shots", ".v2\take").
Proof. split; reflexivity. Qed.

Example get_frame_path_digits_only :
  get_frame_path Path.Posix "renders/0042.exr" = ("renders/", 4, ".exr")
  /\ get_frame_path Path.Posix "12ab34.5" = ("12ab", 2, ".5").
Proof. split; reflexivity. Qed.

(** C2: the three examples of the docstring hold, under [posixpath] and
    under [ntpath]: ["C:/test.exr"] gives [("C:/test", 4, ".exr")],
    ["filename.00.tif"] gives [("filename.", 2, ".tif")] and
    ["foobar35.tif"] gives [("foobar", 2, ".tif")]. *)
Theorem get_frame_path_doctests (os : Path.flavour) :
  get_frame_path os "C:/test.exr" = ("C:/test", 4, ".exr")
  /\ get_frame_path os "filename.00.tif" = ("filename.", 2, ".tif")
  /\ get_frame_path os "foobar35.tif" = ("foobar", 2, ".tif").
Proof. destruct os; repeat split; vm_compute; reflexivity. Qed.

(** C1: [get_frame_path] does not return (stem without its final digits,
    their number, extension) for every path. The stem of
    ["take<LF>07.exr"] ends with the digits [07] and comes back whole with
    the default padding 4, the [.] of the pattern not matching a line feed;
    the stem of ["take07<LF>.exr"] ends with a line feed and comes back as
    ["take0"] with padding 2, the [$] of the pattern matching before a
    final line feed and the slice removing the last two characters. *)
Theorem get_frame_path_line_feed (os : Path.flavour) :
  get_frame_path os ("take" +:+ LF +:+ "07.exr") = ("take" +:+ LF +:+ "07", 4, ".exr")
  /\ get_frame_path os ("take07" +:+ LF +:+ ".exr") = ("take0", 2, ".exr").
Proof. destruct os; split; vm_compute; reflexivity. Qed.

(** ** [ValidateInstanceHasMembers] *)

Section Validator.

Import ValidateInstanceHasMembers.

Lemma get_invalid_unfold (instance : Instance) (members : pyval) :
  data instance !! "setMembers" = Some members ->
  get_invalid instance =
    if truthy members then Ok []
    else match data instance !! "name" with
         | Some name => Ok [name]
         | None => Raise (KeyError "name")
         end.
Proof.
  intros Hm. unfold get_invalid, getitem. rewrite Hm. cbn.
  destruct (truthy members); cbn; [reflexivity|].
  by destruct (data instance !! "name").
Qed.

(** The only error that [get_invalid] raises is that of a missing key. *)
Lemma get_invalid_raises (instance : Instance) e :
  get_invalid instance = Raise e -> exists key, e = KeyError key.
Proof.
  unfold get_invalid, getitem.
  destruct (data instance !! "setMembers") as [m|]; cbn; [|intros [= <-]; eauto].
  destruct (truthy m); cbn; [done|].
  destruct (data instance !! "name") as [n|]; cbn; [done|intros [= <-]; eauto].
Qed.

(** C3: for an instance whose [setMembers] is falsy, [get_invalid] returns
    the list that holds the name of the instance and nothing else; for an
    instance whose [setMembers] is truthy, it returns the empty list. *)
Theorem get_invalid_members (instance : Instance) (members : pyval) :
  data instance !! "setMembers" = Some members ->
  (truthy members = false ->
   forall name, data instance !! "name" = Some name ->
     get_invalid instance = Ok [name])
  /\ (truthy members = true -> get_invalid instance = Ok []).
Proof.
  intros Hm. rewrite (get_invalid_unfold _ _ Hm).
  split; intros Ht; rewrite Ht; [|reflexivity].
  intros name Hn. by rewrite Hn.
Qed.

Lemma get_invalid_members_witness :
  get_invalid empty_instance = Ok [PStr "modelMain"]
  /\ get_invalid filled_instance = Ok [].
Proof.
  split.
  - apply (proj1 (get_invalid_members empty_instance (PList []) eq_refl) eq_refl).
    reflexivity.
  - apply (proj2 (get_invalid_members filled_instance (PList [PStr "pCube1"]) eq_refl)).
    reflexivity.
Defined.

(** C4: [process] raises the [RuntimeError] whose message is formatted
    with the list of invalid names exactly when [get_invalid] returns a
    list that is not empty; when [setMembers] is truthy, [process] returns
    [None] without raising. *)
Theorem process_raises_iff_invalid (instance : Instance) :
  (forall msg,
     process instance = Raise (RuntimeError msg) <->
     exists invalid, get_invalid instance = Ok invalid /\ invalid <> []
       /\ msg = Fmt "Empty instances found: {0}" [PList invalid])
  /\ (forall members, data instance !! "setMembers" = Some members ->
        truthy members = true -> process instance = Ok PNone).
Proof.
  split.
  - intros msg. unfold process.
    destruct (get_invalid instance) as [invalid|e] eqn:Hinv; cbn.
    + destruct invalid as [|n invalid]; cbn; split.
      * done.
      * intros (inv & [= <-] & Hne & _). done.
      * intros [= <-]. eexists. split; [reflexivity|]. split; done.
      * intros (inv & [= <-] & _ & ->). done.
    + split.
      * intros [= ->]. apply get_invalid_raises in Hinv as [key Hkey]. done.
      * intros (inv & Hinv' & _). done.
  - intros members Hm Ht. unfold process.
    by rewrite (get_invalid_unfold _ _ Hm), Ht.
Qed.

Lemma process_raises_iff_invalid_witness :
  process empty_instance =
    Raise (RuntimeError (Fmt "Empty instances found: {0}" [PList [PStr "modelMain"]]))
  /\ process filled_instance = Ok PNone.
Proof.
  split.
  - apply (proj1 (process_raises_iff_invalid empty_instance)).
    exists [PStr "modelMain"].
    split; [reflexivity | split; [discriminate | reflexivity]].
  - apply (proj2 (process_raises_iff_invalid filled_instance) (PList [PStr "pCube1"]));
      reflexivity.
Defined.

End Validator.

(** ** The Fusion host: one composition at a time *)

Lemma on_comp_present c f h co :
  comps h !! c = Some co -> on_comp c f h = with_comp h c (f co).
Proof.
  intros Hc. unfold on_comp, with_comp. f_equal.
  apply map_eq. intros i. rewrite lookup_alter, lookup_insert.
  case_decide; [subst; by rewrite Hc | reflexivity].
Qed.

Lemma with_comp_lookup h c co : comps (with_comp h c co) !! c = Some co.
Proof. apply lookup_insert_eq. Qed.

Lemma with_comp_again h c co co' :
  with_comp (with_comp h c co) c co' = with_comp h c co'.
Proof. unfold with_comp. cbn. by rewrite insert_insert_eq. Qed.

(** ** [update_frame_range] *)

(** The dict that is passed to [SetAttrs], for handles that are numbers. *)
Lemma frame_range_attrs_written (start end_ hs he : Z) (flag : bool) :
  frame_range_attrs start end_ flag (Some hs) (Some he) =
    if flag then
      <["COMPN_RenderStart" := start]> (<["COMPN_RenderEnd" := end_]>
        (<["COMPN_GlobalStart" := (start - hs)%Z]>
           (<["COMPN_GlobalEnd" := (end_ + he)%Z]> ∅)))
    else
      <["COMPN_GlobalStart" := (start - hs)%Z]>
        (<["COMPN_GlobalEnd" := (end_ + he)%Z]> ∅).
Proof.
  unfold frame_range_attrs, or_zero.
  assert (Hz : forall z : Z, (if (z =? 0)%Z then 0%Z else z) = z).
  { intros z. destruct (Z.eqb_spec z 0); congruence. }
  rewrite !Hz. destruct flag; [|reflexivity].
  by rewrite <- !insert_union_l, (left_id_L ∅ (∪)).
Qed.

(** The transaction leaves the lock and the undo chunk as they were, and
    the attributes of the composition updated. *)
Lemma update_frame_range_on h c co start end_ comp flag hs he :
  c = match comp with Some c => c | None => get_current_comp h end ->
  comps h !! c = Some co ->
  update_frame_range start end_ comp flag hs he h =
    with_comp h c (SetAttrs (frame_range_attrs start end_ flag hs he) co).
Proof.
  intros Hc Hco. unfold update_frame_range, comp_lock_and_undo_chunk.
  rewrite <- Hc.
  rewrite (on_comp_present c enter_chunk h co Hco).
  rewrite (on_comp_present c _ _ _ (with_comp_lookup _ _ _)), with_comp_again.
  rewrite (on_comp_present c _ _ _ (with_comp_lookup _ _ _)), with_comp_again.
  reflexivity.
Qed.

(** C5: for integers [start], [end_], [hs] and [he], [update_frame_range]
    sets on the composition (the one given, else the current one) the dict
    [written], in which the global range is [start - hs .. end_ + he]; with
    the render range flag set [written] also holds the render range
    [start .. end_] and has these four keys only, without the flag it has
    the two keys of the global range only. For 1001, 1100, 8 and 8 the
    global range is 993 .. 1108 and the render range 1001 .. 1100. *)
Theorem update_frame_range_writes
    (start end_ hs he : Z) (comp : option comp_id) (flag : bool)
    (h : fusion) (c : comp_id) (co : Comp) :
  c = match comp with Some c => c | None => get_current_comp h end ->
  comps h !! c = Some co ->
  let written := frame_range_attrs start end_ flag (Some hs) (Some he) in
  update_frame_range start end_ comp flag (Some hs) (Some he) h =
    with_comp h c (SetAttrs written co)
  /\ written !! "COMPN_GlobalStart" = Some (start - hs)%Z
  /\ written !! "COMPN_GlobalEnd" = Some (end_ + he)%Z
  /\ (flag = true ->
      written !! "COMPN_RenderStart" = Some start
      /\ written !! "COMPN_RenderEnd" = Some end_
      /\ dom written = {["COMPN_GlobalStart"; "COMPN_GlobalEnd";
                         "COMPN_RenderStart"; "COMPN_RenderEnd"]})
  /\ (flag = false ->
      dom written = {["COMPN_GlobalStart"; "COMPN_GlobalEnd"]})
  /\ frame_range_attrs 1001 1100 true (Some 8%Z) (Some 8%Z) =
       <["COMPN_RenderStart" := 1001%Z]> (<["COMPN_RenderEnd" := 1100%Z]>
         (<["COMPN_GlobalStart" := 993%Z]> (<["COMPN_GlobalEnd" := 1108%Z]> ∅)))
  /\ frame_range_attrs 1001 1100 false (Some 8%Z) (Some 8%Z) =
       <["COMPN_GlobalStart" := 993%Z]> (<["COMPN_GlobalEnd" := 1108%Z]> ∅).
Proof.
  intros Hc Hco written. subst written.
  split; [by apply update_frame_range_on|].
  rewrite !frame_range_attrs_written.
  split; [by destruct flag|]. split; [by destruct flag|].
  split; [intros ->; split; [done|split; [done|]]|split; [intros ->|done]].
  - rewrite !dom_insert_L, dom_empty_L. apply set_eq. intros x. set_unfold. tauto.
  - rewrite !dom_insert_L, dom_empty_L. apply set_eq. intros x. set_unfold. tauto.
Qed.

Lemma update_frame_range_writes_witness :
  update_frame_range 1001 1100 None true (Some 8%Z) (Some 8%Z) demo_fusion =
    with_comp demo_fusion 7
      (SetAttrs (frame_range_attrs 1001 1100 true (Some 8%Z) (Some 8%Z)) demo_comp).
Proof.
  apply (update_frame_range_writes 1001 1100 8 8 None true demo_fusion 7 demo_comp);
    reflexivity.
Defined.

(** C10: a handle that is [None] is taken as 0: the dict passed to
    [SetAttrs] and the resulting state of the host are those of the call
    with that handle equal to 0, for [handle_start] and for [handle_end]. *)
Theorem update_frame_range_none_handle
    (start end_ : Z) (comp : option comp_id) (flag : bool) (handle : option Z)
    (h : fusion) :
  frame_range_attrs start end_ flag None handle =
    frame_range_attrs start end_ flag (Some 0%Z) handle
  /\ frame_range_attrs start end_ flag handle None =
    frame_range_attrs start end_ flag handle (Some 0%Z)
  /\ update_frame_range start end_ comp flag None handle h =
     update_frame_range start end_ comp flag (Some 0%Z) handle h
  /\ update_frame_range start end_ comp flag handle None h =
     update_frame_range start end_ comp flag handle (Some 0%Z) h.
Proof. repeat split. Qed.

(** ** [maintained_selection] *)

Lemma reselect_all c (l : list tool) h co :
  comps h !! c = Some co ->
  foldl (fun h tool => on_comp c (Select tool) h) h l =
    with_comp h c (with_selection co (list_to_set l ∪ selection co)).
Proof.
  revert h co. induction l as [|t l IH]; intros h co Hco; cbn [foldl].
  - unfold with_comp. destruct h as [cs cur]. cbn in *. f_equal.
    rewrite insert_id; [reflexivity|]. rewrite Hco. f_equal.
    destruct co; unfold with_selection; cbn. f_equal.
    by rewrite (left_id_L ∅ (∪)).
  - rewrite (on_comp_present _ _ _ _ Hco).
    rewrite (IH _ _ (with_comp_lookup _ _ _)), with_comp_again.
    f_equal. unfold with_selection, Select. cbn. f_equal.
    rewrite (assoc_L (∪)). f_equal. apply (comm_L (∪)).
Qed.

Lemma restore_selection_on c (s : gset tool) h co :
  comps h !! c = Some co ->
  restore_selection c (elements s) h = with_comp h c (with_selection co s).
Proof.
  intros Hco. unfold restore_selection.
  rewrite (on_comp_present _ _ _ _ Hco).
  assert (Hall : foldl (fun h tool => on_comp c (Select tool) h)
                   (with_comp h c (Select_none co)) (elements s)
                 = with_comp h c (with_selection co s)).
  { rewrite (reselect_all _ _ _ _ (with_comp_lookup _ _ _)), with_comp_again.
    f_equal. unfold with_selection, Select_none. cbn. f_equal.
    rewrite list_to_set_elements_L. apply (right_id_L ∅ (∪)). }
  destruct (elements s) as [|t l] eqn:Hel; [|exact Hall].
  apply elements_empty_inv in Hel. apply leibniz_equiv in Hel. subst s.
  reflexivity.
Qed.

(** C9: whatever the body does and however it ends, with its result or
    with an exception [r], the scope ends the same way and leaves the host
    as the body left it but for the selection of the composition that was
    current on entry, which is the selection that it had on entry. *)
Theorem maintained_selection_restores {A} (body : M fusion A)
    (h h1 : fusion) (r : result A) (co co1 : Comp) :
  comps h !! get_current_comp h = Some co ->
  body h = (r, h1) ->
  comps h1 !! get_current_comp h = Some co1 ->
  maintained_selection body h =
    (r, with_comp h1 (get_current_comp h) (with_selection co1 (selection co))).
Proof.
  intros Hco Hbody Hco1. unfold maintained_selection, try_finally.
  rewrite Hco, Hbody. unfold GetToolList_selected.
  by rewrite (restore_selection_on _ _ _ _ Hco1).
Qed.

Lemma maintained_selection_restores_witness :
  maintained_selection demo_body demo_fusion =
    (Raise TypeError, with_comp demo_fusion 7 demo_comp).
Proof.
  rewrite (maintained_selection_restores demo_body demo_fusion
             (snd (demo_body demo_fusion)) (Raise TypeError)
             demo_comp (with_selection demo_comp {[11]})); reflexivity.
Defined.

(** ** Running the calls of [switch_item] *)

(** Running a bind: the second computation runs in the world that the
    first one left, unless the first one raised. *)
Lemma mbind_run {A B} (m : M world A) (k : A -> M world B) w :
  (m ≫= k) w =
    match m w with
    | (Ok a, w') => k a w'
    | (Raise e, w') => (Raise e, w')
    end.
Proof. reflexivity. Qed.

Lemma getitem_Some (d : dict) key v : d !! key = Some v -> getitem d key = Ok v.
Proof. intros H. unfold getitem. by rewrite H. Qed.

Lemma getitem_None (d : dict) key : d !! key = None -> getitem d key = Raise (KeyError key).
Proof. intros H. unfold getitem. by rewrite H. Qed.

(** A dict with a key is not the empty dict, hence truthy. *)
Lemma lookup_nonempty (d : dict) key v : d !! key = Some v -> d <> ∅.
Proof. intros H ->. by rewrite lookup_empty in H. Qed.

Lemma assert_doc_Some_run d msg w :
  assert_doc (Some d) msg w =
    if bool_decide (d = ∅) then (Raise (AssertionError msg), w) else (Ok d, w).
Proof. unfold assert_doc, truthy_doc. by case_bool_decide. Qed.

Lemma assert_doc_None_run msg w :
  assert_doc None msg w = (Raise (AssertionError msg), w).
Proof. reflexivity. Qed.

Lemma untouched_refl w : untouched w w.
Proof. split; [done|]. exists []. by rewrite app_nil_r. Qed.

Lemma untouched_trans w1 w2 w3 :
  untouched w1 w2 -> untouched w2 w3 -> untouched w1 w3.
Proof.
  intros [Hc (n1 & Hn1 & Hq1)] [Hc' (n2 & Hn2 & Hq2)]. split; [congruence|].
  exists (n1 ++ n2). rewrite Hn2, Hn1, <- app_assoc. split; [done|].
  rewrite forallb_app, Hq1, Hq2. done.
Qed.

Lemma untouched_logged w cs :
  forallb (fun c => negb (is_switch c)) cs = true -> untouched w (logged w cs).
Proof. intros H. split; [done|]. by exists cs. Qed.

(** ** [switch_item] *)

Section SwitchItemFacts.

Context (cl : Client).

(** Runs the calls of [switch_item] one after the other, [tac] giving
    what the lookups return. *)
Ltac run_with tac :=
  unfold find_new_one, collect_names, call_active_project,
    call_get_representation_by_id, call_get_representation_parents,
    call_get_asset_by_name, call_get_subset_by_name,
    call_get_last_version_by_subset_id, call_get_representation_by_name,
    call_switch_container, container_getitem, lift;
  repeat (first
    [ rewrite mbind_run
    | progress cbn [log modify mret M_ret ret raise assert_doc logged container calls]
    | progress tac ]).

Ltac tidy_log :=
  unfold logged; cbn [container calls]; rewrite <- ?app_assoc; cbn [app].

(** Runs the calls of [switch_item] with a case distinction at every
    lookup, assertion and subscript. *)
Ltac crunch :=
  repeat match goal with
  | |- context [(_ ≫= _) _] => rewrite mbind_run
  | |- context [assert_doc (Some ?d) ?m ?w] =>
      rewrite (assert_doc_Some_run d m w); case_bool_decide
  | |- context [assert_doc None ?m ?w] => rewrite (assert_doc_None_run m w)
  | |- context [assert_doc ?o _ _] => destruct o eqn:?
  | |- context [getitem ?d ?k] =>
      let H := fresh "Hitem" in
      destruct (d !! k) eqn:H;
      [rewrite (getitem_Some _ _ _ H) | rewrite (getitem_None _ _ H)]
  | _ => progress cbn [log modify mret M_ret ret raise logged container calls negb]
  end.

Ltac chain_case tac :=
  run_with ltac:(tac; rewrite ?assert_doc_Some_run;
                 rewrite ?bool_decide_eq_false_2 by eauto using lookup_nonempty);
  tidy_log; reflexivity.

(** What an outcome of the part under [# Find the new one] tells: an
    exception leaves the container alone, a result comes with the four
    lookups and the switch. *)
Lemma find_new_one_inv p an sn rn w res w' :
  find_new_one cl p an sn rn w = (res, w') ->
  match res with
  | Raise e => untouched w w'
  | Ok d =>
      exists asset aid subset sid version vid,
        get_asset_by_name cl p an = Some asset /\ asset !! "_id" = Some aid
        /\ get_subset_by_name cl p sn aid = Some subset /\ subset !! "_id" = Some sid
        /\ get_last_version_by_subset_id cl p sid = Some version
        /\ version !! "_id" = Some vid
        /\ get_representation_by_name cl p rn vid = Some d
        /\ w' = {| container := switch_container cl (container w) d;
                   calls := calls w ++
                     [GetAssetByName p an; GetSubsetByName p sn aid;
                      GetLastVersionBySubsetId p sid;
                      GetRepresentationByName p rn vid; SwitchContainer d] |}
  end.
Proof.
  run_with idtac. crunch.  all: intros [= <- <-];
    try (split; [done|]; tidy_log; eexists; split; [reflexivity|done]).
  do 6 eexists. repeat (split; [eassumption || reflexivity|]). tidy_log. reflexivity.
Qed.

(** Collecting the names makes lookups only. *)
Lemma collect_names_untouched p a s r w res w' :
  collect_names cl p a s r w = (res, w') -> untouched w w'.
Proof.
  unfold collect_names.
  destruct (existsb falsy [a; s; r]); [|intros [= <- <-]; apply untouched_refl].
  unfold container_getitem, call_get_representation_by_id,
    call_get_representation_parents, lift.
  rewrite mbind_run.
  destruct (container w !! "representation") as [repre_id|] eqn:Hid;
    [rewrite (getitem_Some _ _ _ Hid) | rewrite (getitem_None _ _ Hid)];
    [|intros [= <- <-]; apply untouched_refl].
  repeat (rewrite mbind_run; cbn [log modify mret M_ret ret]).
  destruct (get_representation_parents cl _) as [[[[v sub] asset] proj]|];
    destruct (is_None a), (is_None s), (is_None r);
    repeat (rewrite mbind_run; cbn [log modify mret M_ret ret]);
    unfold subscript;
    repeat match goal with
    | |- context [match ?o with Some _ => _ | None => _ end] => destruct o
    | |- context [getitem ?d ?k] =>
        let H := fresh "Hitem" in
        destruct (d !! k) eqn:H;
        [rewrite (getitem_Some _ _ _ H) | rewrite (getitem_None _ _ H)]
    | _ => rewrite mbind_run
    | _ => progress cbn [log modify mret M_ret ret]
    end;
    intros [= <- <-]; (split; [done|]; tidy_log; eexists; split; [reflexivity|done]).
Qed.

(** C6: when the three names are all falsy, [switch_item] raises the
    [ValueError] with its message and the world is as it was: no call was
    made, the container is the same. *)
Theorem switch_item_requires_a_name (a s r : pyval) (w : world) :
  falsy a = true -> falsy s = true -> falsy r = true ->
  switch_item cl a s r w =
    (Raise (ValueError "Must have at least one change provided to switch."), w).
Proof.
  intros Ha Hs Hr. unfold switch_item. cbn [forallb]. by rewrite Ha, Hs, Hr.
Qed.

(** The part under [# Find the new one], case by case, and what an
    outcome of [switch_item] tells whatever the names. *)
Lemma lookup_chain_facts (p an sn rn : pyval) (w : world) :
  (get_asset_by_name cl p an = None ->
   find_new_one cl p an sn rn w =
     (Raise (AssertionError
        (Fmt "Could not find asset in the database with the name '%s'" [an])),
      logged w [GetAssetByName p an]))
  /\ (forall asset aid,
      get_asset_by_name cl p an = Some asset -> asset !! "_id" = Some aid ->
      get_subset_by_name cl p sn aid = None ->
      find_new_one cl p an sn rn w =
        (Raise (AssertionError
           (Fmt "Could not find subset in the database with the name '%s'" [sn])),
         logged w [GetAssetByName p an; GetSubsetByName p sn aid]))
  /\ (forall asset aid subset sid,
      get_asset_by_name cl p an = Some asset -> asset !! "_id" = Some aid ->
      get_subset_by_name cl p sn aid = Some subset -> subset !! "_id" = Some sid ->
      get_last_version_by_subset_id cl p sid = None ->
      find_new_one cl p an sn rn w =
        (Raise (AssertionError (Fmt "Could not find a version for {}.{}" [an; sn])),
         logged w [GetAssetByName p an; GetSubsetByName p sn aid;
                   GetLastVersionBySubsetId p sid]))
  /\ (forall asset aid subset sid version vid,
      get_asset_by_name cl p an = Some asset -> asset !! "_id" = Some aid ->
      get_subset_by_name cl p sn aid = Some subset -> subset !! "_id" = Some sid ->
      get_last_version_by_subset_id cl p sid = Some version ->
      version !! "_id" = Some vid ->
      get_representation_by_name cl p rn vid = None ->
      find_new_one cl p an sn rn w =
        (Raise (AssertionError
           (Fmt "Could not find representation in the database with the name '%s'"
                [rn])),
         logged w [GetAssetByName p an; GetSubsetByName p sn aid;
                   GetLastVersionBySubsetId p sid;
                   GetRepresentationByName p rn vid]))
  /\ (forall asset aid subset sid version vid representation,
      get_asset_by_name cl p an = Some asset -> asset !! "_id" = Some aid ->
      get_subset_by_name cl p sn aid = Some subset -> subset !! "_id" = Some sid ->
      get_last_version_by_subset_id cl p sid = Some version ->
      version !! "_id" = Some vid ->
      get_representation_by_name cl p rn vid = Some representation ->
      representation <> ∅ ->
      find_new_one cl p an sn rn w =
        (Ok representation,
         {| container := switch_container cl (container w) representation;
            calls := calls w ++
              [GetAssetByName p an; GetSubsetByName p sn aid;
               GetLastVersionBySubsetId p sid;
               GetRepresentationByName p rn vid;
               SwitchContainer representation] |}))
  /\ (forall a s r res w',
      switch_item cl a s r w = (res, w') ->
      match res with
      | Raise _ => untouched w w'
      | Ok d =>
          exists before an' sn' rn' asset aid subset sid version vid,
            forallb (fun c => negb (is_switch c)) before = true
            /\ get_asset_by_name cl (active_project cl) an' = Some asset
            /\ asset !! "_id" = Some aid
            /\ get_subset_by_name cl (active_project cl) sn' aid = Some subset
            /\ subset !! "_id" = Some sid
            /\ get_last_version_by_subset_id cl (active_project cl) sid = Some version
            /\ version !! "_id" = Some vid
            /\ get_representation_by_name cl (active_project cl) rn' vid = Some d
            /\ container w' = switch_container cl (container w) d
            /\ calls w' = calls w ++ before ++
                  [GetAssetByName (active_project cl) an';
                   GetSubsetByName (active_project cl) sn' aid;
                   GetLastVersionBySubsetId (active_project cl) sid;
                   GetRepresentationByName (active_project cl) rn' vid;
                   SwitchContainer d]
      end).
Proof.
  split; [intros Ha; chain_case ltac:(rewrite ?Ha)|].
  split; [intros asset aid Ha Haid Hs;
          chain_case ltac:(rewrite ?Ha, ?Hs, ?(getitem_Some _ _ _ Haid))|].
  split; [intros asset aid subset sid Ha Haid Hs Hsid Hv;
          chain_case ltac:(rewrite ?Ha, ?Hs, ?Hv, ?(getitem_Some _ _ _ Haid),
                           ?(getitem_Some _ _ _ Hsid))|].
  split; [intros asset aid subset sid version vid Ha Haid Hs Hsid Hv Hvid Hr;
          chain_case ltac:(rewrite ?Ha, ?Hs, ?Hv, ?Hr, ?(getitem_Some _ _ _ Haid),
                           ?(getitem_Some _ _ _ Hsid), ?(getitem_Some _ _ _ Hvid))|].
  split; [intros asset aid subset sid version vid repre Ha Haid Hs Hsid Hv Hvid Hr Hne;
          chain_case ltac:(rewrite ?Ha, ?Hs, ?Hv, ?Hr, ?(getitem_Some _ _ _ Haid),
                           ?(getitem_Some _ _ _ Hsid), ?(getitem_Some _ _ _ Hvid))|].
  intros a s r res w'. unfold switch_item.
  destruct (forallb falsy [a; s; r]); [intros [= <- <-]; apply untouched_refl|].
  unfold call_active_project.
  repeat (rewrite mbind_run; cbn [log modify mret M_ret ret]).
  destruct (collect_names _ _ _ _ _ _) as [[[[an' sn'] rn']|e] w1] eqn:Hnames;
    apply collect_names_untouched in Hnames;
    pose proof (untouched_trans _ _ _
      (untouched_logged w [ActiveProject] eq_refl) Hnames) as Hpre.
  - intros Hfind. apply find_new_one_inv in Hfind.
    destruct res as [d|e].
    + destruct Hfind as (asset & aid & subset & sid & version & vid & Hfind).
      destruct Hfind as (Ha & Haid & Hs & Hsid & Hv & Hvid & Hr & ->).
      destruct Hpre as (Hcont & before & Hcalls & Hquiet).
      exists before, an', sn', rn', asset, aid, subset, sid, version, vid.
      cbn [container calls]. rewrite Hcont, Hcalls, <- app_assoc. done.
    + by apply (untouched_trans _ _ _ Hpre).
  - by intros [= <- <-].
Qed.

(** When at least one of the three names is truthy and at least one is
    falsy, and the documents of the current representation of the
    container are found, every name that is [None] is replaced by the name
    of the asset, of the subset or of the representation among those
    documents, every other name is kept, and the lookups of
    [switch_item] are made with these names. *)
Lemma switch_item_fills_omitted (a s r : pyval) (w : world)
    (repre_id : pyval) (repre : dict) (version : option dict)
    (subset asset : dict) (project : option dict) (an sn rn : pyval) :
  forallb falsy [a; s; r] = false ->
  existsb falsy [a; s; r] = true ->
  container w !! "representation" = Some repre_id ->
  get_representation_by_id cl (active_project cl) repre_id = Some repre ->
  get_representation_parents cl (Some repre) =
    Some (version, Some subset, Some asset, project) ->
  asset !! "name" = Some an -> subset !! "name" = Some sn ->
  repre !! "name" = Some rn ->
  let w' := logged w [ActiveProject;
                      GetRepresentationById (active_project cl) repre_id;
                      GetRepresentationParents (Some repre)] in
  collect_names cl (active_project cl) a s r (logged w [ActiveProject]) =
    (Ok (filled a an, filled s sn, filled r rn), w')
  /\ switch_item cl a s r w =
      find_new_one cl (active_project cl) (filled a an) (filled s sn) (filled r rn) w'.
Proof.
  intros Hall Hany Hid Hrepre Hparents Han Hsn Hrn w'.
  assert (Hnames :
    collect_names cl (active_project cl) a s r (logged w [ActiveProject]) =
      (Ok (filled a an, filled s sn, filled r rn), w')).
  { unfold collect_names, filled. rewrite Hany.
    unfold container_getitem, call_get_representation_by_id,
      call_get_representation_parents, lift.
    rewrite mbind_run. cbn [logged container].
    rewrite (getitem_Some _ _ _ Hid).
    repeat (rewrite mbind_run; cbn [log modify mret M_ret ret]).
    rewrite Hrepre, Hparents. unfold subscript.
    rewrite (getitem_Some _ _ _ Han), (getitem_Some _ _ _ Hsn),
      (getitem_Some _ _ _ Hrn).
    destruct (is_None a), (is_None s), (is_None r);
      repeat (rewrite mbind_run; cbn [log modify mret M_ret ret]);
      subst w'; tidy_log; reflexivity. }
  split; [exact Hnames|].
  unfold switch_item. rewrite Hall. unfold call_active_project.
  repeat (rewrite mbind_run; cbn [log modify mret M_ret ret]).
  fold (logged w [ActiveProject]). by rewrite Hnames.
Qed.

(** With the names resolved, [switch_item] is the four lookups with these
    names, after the calls made to resolve them. *)
Lemma switch_item_names (a s r an sn rn : pyval) (before : list call) (w : world) :
  names_resolved cl w a s r an sn rn before ->
  switch_item cl a s r w =
    find_new_one cl (active_project cl) an sn rn (logged w before).
Proof.
  intros [Ha Hs Hr | repre_id repre version subset asset project lan lsn lrn
                      Hall Hany Hid Hrepre Hparents Han Hsn Hrn].
  - unfold switch_item, collect_names, falsy. cbn [forallb existsb].
    rewrite Ha, Hs, Hr. cbn [negb andb orb]. unfold call_active_project.
    repeat (rewrite mbind_run; cbn [log modify mret M_ret ret]). reflexivity.
  - exact (proj2 (switch_item_fills_omitted a s r w repre_id repre version
                    subset asset project lan lsn lrn
                    Hall Hany Hid Hrepre Hparents Han Hsn Hrn)).
Qed.

Lemma logged_app w cs cs' : logged (logged w cs) cs' = logged w (cs ++ cs').
Proof. unfold logged. cbn. by rewrite app_assoc. Qed.

(** C7: [switch_item], once it has its names [an], [sn] and [rn], makes
    the lookups in the order asset by name, subset by name under the
    identifier of that asset, last version of that subset, representation
    by name under that version. The first of them that returns [None] ends
    [switch_item] with the [AssertionError] of that step, formatted with
    the names, after the calls made so far and no other; when the four have
    returned documents with their [_id], the representation being a
    non-empty document, [switch_container] is called with it as the last
    call and [switch_item] returns it. Whenever [switch_item] raises, with
    these names or with any others, the container is the one it was given
    and [switch_container] was not called; whenever it returns, the four
    lookups had succeeded. *)
Theorem switch_item_resolution_chain
    (a s r an sn rn : pyval) (before : list call) (w : world) :
  names_resolved cl w a s r an sn rn before ->
  let p := active_project cl in
  (get_asset_by_name cl p an = None ->
   switch_item cl a s r w =
     (Raise (AssertionError
        (Fmt "Could not find asset in the database with the name '%s'" [an])),
      logged w (before ++ [GetAssetByName p an])))
  /\ (forall asset aid,
      get_asset_by_name cl p an = Some asset -> asset !! "_id" = Some aid ->
      get_subset_by_name cl p sn aid = None ->
      switch_item cl a s r w =
        (Raise (AssertionError
           (Fmt "Could not find subset in the database with the name '%s'" [sn])),
         logged w (before ++ [GetAssetByName p an; GetSubsetByName p sn aid])))
  /\ (forall asset aid subset sid,
      get_asset_by_name cl p an = Some asset -> asset !! "_id" = Some aid ->
      get_subset_by_name cl p sn aid = Some subset -> subset !! "_id" = Some sid ->
      get_last_version_by_subset_id cl p sid = None ->
      switch_item cl a s r w =
        (Raise (AssertionError (Fmt "Could not find a version for {}.{}" [an; sn])),
         logged w (before ++ [GetAssetByName p an; GetSubsetByName p sn aid;
                              GetLastVersionBySubsetId p sid])))
  /\ (forall asset aid subset sid version vid,
      get_asset_by_name cl p an = Some asset -> asset !! "_id" = Some aid ->
      get_subset_by_name cl p sn aid = Some subset -> subset !! "_id" = Some sid ->
      get_last_version_by_subset_id cl p sid = Some version ->
      version !! "_id" = Some vid ->
      get_representation_by_name cl p rn vid = None ->
      switch_item cl a s r w =
        (Raise (AssertionError
           (Fmt "Could not find representation in the database with the name '%s'"
                [rn])),
         logged w (before ++ [GetAssetByName p an; GetSubsetByName p sn aid;
                              GetLastVersionBySubsetId p sid;
                              GetRepresentationByName p rn vid])))
  /\ (forall asset aid subset sid version vid representation,
      get_asset_by_name cl p an = Some asset -> asset !! "_id" = Some aid ->
      get_subset_by_name cl p sn aid = Some subset -> subset !! "_id" = Some sid ->
      get_last_version_by_subset_id cl p sid = Some version ->
      version !! "_id" = Some vid ->
      get_representation_by_name cl p rn vid = Some representation ->
      representation <> ∅ ->
      switch_item cl a s r w =
        (Ok representation,
         {| container := switch_container cl (container w) representation;
            calls := calls w ++ before ++
              [GetAssetByName p an; GetSubsetByName p sn aid;
               GetLastVersionBySubsetId p sid;
               GetRepresentationByName p rn vid;
               SwitchContainer representation] |}))
  /\ (forall res w',
      switch_item cl a s r w = (res, w') ->
      match res with
      | Raise _ => untouched w w'
      | Ok d =>
          exists asset aid subset sid version vid,
            get_asset_by_name cl p an = Some asset /\ asset !! "_id" = Some aid
            /\ get_subset_by_name cl p sn aid = Some subset
            /\ subset !! "_id" = Some sid
            /\ get_last_version_by_subset_id cl p sid = Some version
            /\ version !! "_id" = Some vid
            /\ get_representation_by_name cl p rn vid = Some d
            /\ container w' = switch_container cl (container w) d
            /\ calls w' = calls w ++ before ++
                 [GetAssetByName p an; GetSubsetByName p sn aid;
                  GetLastVersionBySubsetId p sid;
                  GetRepresentationByName p rn vid; SwitchContainer d]
      end)
  /\ (forall a' s' r' res w',
      switch_item cl a' s' r' w = (res, w') ->
      match res with
      | Raise _ => untouched w w'
      | Ok d =>
          exists made_before an' sn' rn' asset aid subset sid version vid,
            forallb (fun c => negb (is_switch c)) made_before = true
            /\ get_asset_by_name cl p an' = Some asset
            /\ asset !! "_id" = Some aid
            /\ get_subset_by_name cl p sn' aid = Some subset
            /\ subset !! "_id" = Some sid
            /\ get_last_version_by_subset_id cl p sid = Some version
            /\ version !! "_id" = Some vid
            /\ get_representation_by_name cl p rn' vid = Some d
            /\ container w' = switch_container cl (container w) d
            /\ calls w' = calls w ++ made_before ++
                  [GetAssetByName p an'; GetSubsetByName p sn' aid;
                   GetLastVersionBySubsetId p sid;
                   GetRepresentationByName p rn' vid; SwitchContainer d]
      end).
Proof.
  intros Hnames p.
  assert (Hany := proj2 (proj2 (proj2 (proj2 (proj2
            (lookup_chain_facts p an sn rn w)))))). rewrite (switch_item_names _ _ _ _ _ _ _ _ Hnames). fold p.
  destruct (lookup_chain_facts p an sn rn (logged w before))
    as (H1 & H2 & H3 & H4 & H5 & _).
  split; [intros Ha; rewrite (H1 Ha); by rewrite logged_app|].
  split; [intros asset aid Ha Haid Hs;
          rewrite (H2 asset aid Ha Haid Hs); by rewrite logged_app|].
  split; [intros asset aid subset sid Ha Haid Hs Hsid Hv;
          rewrite (H3 asset aid subset sid Ha Haid Hs Hsid Hv); by rewrite logged_app|].
  split; [intros asset aid subset sid version vid Ha Haid Hs Hsid Hv Hvid Hr;
          rewrite (H4 asset aid subset sid version vid Ha Haid Hs Hsid Hv Hvid Hr);
          by rewrite logged_app|].
  split.
  { intros asset aid subset sid version vid repre Ha Haid Hs Hsid Hv Hvid Hr Hne.
    rewrite (H5 asset aid subset sid version vid repre Ha Haid Hs Hsid Hv Hvid Hr Hne).
    unfold logged. cbn [container calls]. by rewrite <- app_assoc. }
  split; [|exact Hany].
  - intros res w' Hrun. apply find_new_one_inv in Hrun. destruct res as [d|e].
    + destruct Hrun as (asset & aid & subset & sid & version & vid & Hrun).
      destruct Hrun as (Ha & Haid & Hs & Hsid & Hv & Hvid & Hr & ->).
      exists asset, aid, subset, sid, version, vid.
      unfold logged. cbn [container calls]. rewrite <- app_assoc. done.
    + apply (untouched_trans _ (logged w before)); [|done].
      apply untouched_logged. destruct Hnames; reflexivity.
Qed.

End SwitchItemFacts.

Lemma switch_item_requires_a_name_witness :
  switch_item demo_client PNone (PStr "") PNone demo_world =
    (Raise (ValueError "Must have at least one change provided to switch."),
     demo_world).
Proof.
  apply (switch_item_requires_a_name demo_client PNone (PStr "") PNone demo_world);
    reflexivity.
Defined.

Lemma switch_item_resolution_chain_witness :
  switch_item demo_client PNone (PStr "rigMain") PNone demo_world =
    (Raise (AssertionError (Fmt "Could not find a version for {}.{}"
                                [PStr "hero"; PStr "rigMain"])),
     logged demo_world
       [ActiveProject;
        GetRepresentationById (PStr "demo") (PStr "r-abc");
        GetRepresentationParents (Some (doc_of "r-abc" "abc"));
        GetAssetByName (PStr "demo") (PStr "hero");
        GetSubsetByName (PStr "demo") (PStr "rigMain") (PStr "a-hero");
        GetLastVersionBySubsetId (PStr "demo") (PStr "s-rig")])
  /\ switch_item demo_client (PStr "hero") (PStr "modelMain") (PStr "ma") demo_world =
    (Ok (doc_of "r-ma" "ma"),
     {| container := switch_container demo_client (container demo_world)
                       (doc_of "r-ma" "ma");
        calls := calls demo_world ++ [ActiveProject] ++
          [GetAssetByName (PStr "demo") (PStr "hero");
           GetSubsetByName (PStr "demo") (PStr "modelMain") (PStr "a-hero");
           GetLastVersionBySubsetId (PStr "demo") (PStr "s-model");
           GetRepresentationByName (PStr "demo") (PStr "ma") (PStr "v-3");
           SwitchContainer (doc_of "r-ma" "ma")] |}).
Proof.
  split.
  - apply (proj1 (proj2 (proj2 (switch_item_resolution_chain demo_client
             PNone (PStr "rigMain") PNone (PStr "hero") (PStr "rigMain") (PStr "abc")
             _ demo_world
             (names_collected demo_client demo_world PNone (PStr "rigMain") PNone
                (PStr "r-abc") (doc_of "r-abc" "abc") (Some (doc_of "v-3" "v003"))
                (doc_of "s-model" "modelMain") (doc_of "a-hero" "hero")
                (Some (doc_of "p-demo" "demo"))
                (PStr "hero") (PStr "modelMain") (PStr "abc")
                eq_refl eq_refl eq_refl eq_refl eq_refl eq_refl eq_refl eq_refl))))
             (doc_of "a-hero" "hero") (PStr "a-hero")
             (doc_of "s-rig" "rigMain") (PStr "s-rig")); reflexivity.
  - apply (proj1 (proj2 (proj2 (proj2 (proj2 (switch_item_resolution_chain demo_client
             (PStr "hero") (PStr "modelMain") (PStr "ma")
             (PStr "hero") (PStr "modelMain") (PStr "ma") _ demo_world
             (names_given demo_client demo_world
                (PStr "hero") (PStr "modelMain") (PStr "ma")
                eq_refl eq_refl eq_refl))))))
             (doc_of "a-hero" "hero") (PStr "a-hero")
             (doc_of "s-model" "modelMain") (PStr "s-model")
             (doc_of "v-3" "v003") (PStr "v-3") (doc_of "r-ma" "ma"));
      try reflexivity.
    apply (lookup_nonempty _ "_id" (PStr "r-ma")). reflexivity.
Defined.

Example switch_item_fills_omitted_example :
  switch_item demo_client PNone (PStr "modelMain") PNone demo_world =
    find_new_one demo_client (PStr "demo")
      (PStr "hero") (PStr "modelMain") (PStr "abc")
      (logged demo_world
         [ActiveProject;
          GetRepresentationById (PStr "demo") (PStr "r-abc");
          GetRepresentationParents (Some (doc_of "r-abc" "abc"))]).
Proof.
  apply (proj2 (switch_item_fills_omitted demo_client
                  PNone (PStr "modelMain") PNone demo_world
                  (PStr "r-abc") (doc_of "r-abc" "abc")
                  (Some (doc_of "v-3" "v003")) (doc_of "s-model" "modelMain")
                  (doc_of "a-hero" "hero") (Some (doc_of "p-demo" "demo"))
                  (PStr "hero") (PStr "modelMain") (PStr "abc")
                  eq_refl eq_refl eq_refl eq_refl eq_refl eq_refl eq_refl eq_refl)).
Defined.

(** C8: not every name that [switch_item] takes as not supplied is filled
    in. The empty string is falsy: with ["modelMain"] next to it the gate
    [any(not x ...)] opens and the current representation is read, but
    [asset_name is None] does not hold, the empty name is kept, and the
    asset is looked up under it, where the same call with [None] looks up
    ["hero"] and returns the representation; with [None] next to it, the
    empty string does not count as supplied and [ValueError] is raised. *)
Theorem switch_item_empty_name_not_filled :
  falsy (PStr "") = true
  /\ switch_item demo_client (PStr "") (PStr "modelMain") PNone demo_world =
    (Raise (AssertionError
       (Fmt "Could not find asset in the database with the name '%s'" [PStr ""])),
     logged demo_world
       [ActiveProject;
        GetRepresentationById (PStr "demo") (PStr "r-abc");
        GetRepresentationParents (Some (doc_of "r-abc" "abc"));
        GetAssetByName (PStr "demo") (PStr "")])
  /\ fst (switch_item demo_client PNone (PStr "modelMain") PNone demo_world) =
       Ok (doc_of "r-abc" "abc")
  /\ switch_item demo_client (PStr "") PNone PNone demo_world =
    (Raise (ValueError "Must have at least one change provided to switch."),
     demo_world).
Proof. repeat split; vm_compute; reflexivity. Qed.

(** * Further properties *)

(** ** [get_frame_path] on every path *)

Lemma all_chars_append P (s d : string) :
  all_chars P (s +:+ d) = all_chars P s && all_chars P d.
Proof.
  induction s as [|c s IH]; [reflexivity|].
  rewrite append_cons. simpl. by rewrite IH, andb_assoc.
Qed.

Lemma dot_not_lf s : all_chars Re.dot s = true -> ends_with is_lf s = false.
Proof.
  induction s as [|c s IH]; [reflexivity|]. simpl.
  intros [Hc Hs]%andb_true_iff. destruct s as [|c' s].
  - unfold ends_with, is_lf. simpl. unfold Re.dot in Hc.
    by destruct (Ascii.eqb c "010").
  - rewrite ends_with_cons by done. by apply IH.
Qed.

Lemma head_and_number_split s :
  s = fst (head_and_number s) +:+ snd (head_and_number s)
  /\ all_chars Re.digit (snd (head_and_number s)) = true
  /\ ends_with Re.digit (fst (head_and_number s)) = false.
Proof.
  induction s as [|c s (Hs & Hd & Hh)]; [done|].
  cbn [head_and_number]. destruct (head_and_number s) as [h d].
  cbn [fst snd] in *. destruct h as [|c' h].
  - rewrite append_nil in Hs. subst s.
    destruct (Re.digit c) eqn:Hc; cbn [fst snd].
    + rewrite append_nil. cbn [all_chars]. by rewrite Hc, Hd.
    + rewrite append_cons, append_nil. rewrite Hd.
      unfold ends_with. cbn [last_char]. by rewrite Hc.
  - cbn [fst snd]. rewrite append_cons, <- Hs. split; [done|]. split; [done|].
    by rewrite ends_with_cons.
Qed.

(** X1: on a path whose stem holds no line feed, [get_frame_path] returns
    what stands before the final run of digits of the stem, the length of
    that run (4 when there is none) and the extension; the stem is the
    head followed by the run, the run is made of digits and the head does
    not end with a digit. *)
Theorem get_frame_path_plain (os : Path.flavour) (path stem ext : string) :
  Path.splitext os path = (stem, ext) ->
  all_chars Re.dot stem = true ->
  let h := fst (head_and_number stem) in
  let d := snd (head_and_number stem) in
  get_frame_path os path =
    (h, match d with EmptyString => 4 | String _ _ => String.length d end, ext)
  /\ stem = h +:+ d
  /\ all_chars Re.digit d = true
  /\ ends_with Re.digit h = false.
Proof.
  intros Hsplit Hdot. cbn zeta.
  destruct (head_and_number_split stem) as (Hs & Hd & Hh).
  destruct (head_and_number stem) as [h d]. cbn [fst snd] in *.
  split; [|done].
  destruct d as [|c d].
  - assert (stem = h) as Hstem.
    { rewrite Hs. clear. induction h as [|a h IH]; [done|].
      rewrite append_cons. by f_equal. }
    rewrite <- Hstem in *.
    apply (get_frame_path_no_number _ _ _ _ Hsplit); [done | by apply dot_not_lf].
  - rewrite Hs in Hsplit, Hdot. rewrite all_chars_append in Hdot.
    apply andb_true_iff in Hdot as [Hdot _].
    by apply (get_frame_path_final_number _ _ _ _ _ Hsplit).
Qed.

Lemma get_frame_path_plain_witness :
  get_frame_path Path.Nt "C:\renders\shot_v2.00815.exr" =
    ("C:\renders\shot_v2.", 5, ".exr").
Proof.
  apply (get_frame_path_plain Path.Nt "C:\renders\shot_v2.00815.exr"
           "C:\renders\shot_v2.00815" ".exr"); reflexivity.
Defined.

Lemma substring_split (k : nat) (s : string) :
  substring 0 k s +:+ substring k (String.length s - k) s = s.
Proof.
  revert k. induction s as [|c s IH]; intros k.
  - by destruct k.
  - destruct k as [|k]; simpl.
    + rewrite append_nil. f_equal. clear.
      induction s as [|a s IH]; [done|]. simpl. by f_equal.
    + rewrite append_cons. by rewrite IH.
Qed.

Lemma substring_length (k : nat) (s : string) :
  k <= String.length s ->
  String.length (substring k (String.length s - k) s) = String.length s - k.
Proof.
  revert k. induction s as [|c s IH]; intros k Hk.
  - by destruct k.
  - destruct k as [|k]; simpl in *.
    + f_equal. clear. induction s as [|a s IH]; [done|]. simpl. by f_equal.
    + apply IH. lia.
Qed.

Lemma splitext_concat os p :
  fst (Path.splitext os p) +:+ snd (Path.splitext os p) = p.
Proof.
  unfold Path.splitext. case_match; simpl.
  - unfold Path.slice_to, Path.slice_from. apply substring_split.
  - clear. induction p as [|a p IH]; [done|]. rewrite append_cons. by f_equal.
Qed.

(** What [[0-9]+$] and the whole pattern capture is at least one character
    and no more than the string has. *)
Lemma number_at_end_length s g r :
  Re.run number_at_end s g = Some r ->
  exists d, r = g +:+ d /\ 1 <= String.length d <= String.length s.
Proof.
  revert g r. induction s as [|c s IH]; intros g r; [done|].
  unfold number_at_end in *. rewrite run_greedy_cons.
  destruct (Re.digit c); [|done].
  destruct (Re.run _ s _) as [r'|] eqn:Hgreedy.
  - intros [= <-]. apply IH in Hgreedy as (d & -> & Hlen).
    exists (String c d). simpl Re.capture. rewrite append_assoc_char.
    split; [done|]. simpl. lia.
  - cbn [Re.run]. destruct (Re.at_dollar s); [|done]. intros [= <-].
    exists (String c ""). split; [done|]. simpl. lia.
Qed.

Lemma final_number_group_length s g r :
  Re.run final_number_group s g = Some r ->
  exists d, r = g +:+ d /\ 1 <= String.length d <= String.length s.
Proof.
  revert g r. induction s as [|c s IH]; intros g r;
    unfold final_number_group in *; rewrite run_lazy_unfold;
    change (Re.run [Re.Chars Re.digit Re.GreedyPlus true; Re.Dollar])
      with (Re.run number_at_end).
  - destruct (Re.run number_at_end "" g) eqn:Hn; [|done].
    intros [= <-]. by apply number_at_end_length in Hn.
  - destruct (Re.run number_at_end (String c s) g) eqn:Hn.
    + intros [= <-]. by apply number_at_end_length in Hn.
    + destruct (Re.dot c); [|done]. simpl Re.capture. intros Hr.
      apply IH in Hr as (d & -> & Hlen). exists d. split; [done|]. simpl. lia.
Qed.

(** X2: for every path, line feeds or not, the padding is at least 1, the
    extension is that of [splitext], and the path is the head, then some
    [t], then the extension, where [t] is empty with padding 4 or has as
    many characters as the padding says. *)
Theorem get_frame_path_keeps_path (os : Path.flavour) (path : string) :
  match get_frame_path os path with
  | (head, padding, ext) =>
      1 <= padding
      /\ ext = snd (Path.splitext os path)
      /\ exists t, path = head +:+ t +:+ ext
           /\ (t = "" /\ padding = 4 \/ String.length t = padding)
  end.
Proof.
  unfold get_frame_path, Re.re_match.
  pose proof (splitext_concat os path) as Hcat.
  destruct (Path.splitext os path) as [stem ext]. simpl in Hcat.
  destruct (Re.run final_number_group stem "") as [g|] eqn:Hrun.
  - apply final_number_group_length in Hrun as (d & -> & Hlen).
    rewrite append_nil. split; [lia|]. split; [done|].
    exists (substring (String.length stem - String.length d)
              (String.length stem - (String.length stem - String.length d)) stem).
    split.
    + unfold drop_last. destruct (String.length d) eqn:Hd; [lia|]. rewrite <- Hd.
      rewrite <- Hcat at 1. clear.
      set (k := String.length stem - String.length d).
      rewrite <- (substring_split k stem) at 1.
      generalize (substring 0 k stem) (substring k (String.length stem - k) stem).
      intros a b. induction a as [|c a IH]; [done|].
      rewrite !append_cons. by f_equal.
    + right. rewrite substring_length; lia.
  - split; [lia|]. split; [done|]. exists "". rewrite append_nil. by split; [|left].
Qed.

(** ** More on [update_frame_range] *)

Lemma on_comp_absent c f h : comps h !! c = None -> on_comp c f h = h.
Proof.
  intros Hc. unfold on_comp. destruct h as [cs cur]. cbn in *. f_equal.
  apply map_eq. intros i. rewrite lookup_alter.
  case_decide; [subst; by rewrite Hc | reflexivity].
Qed.

Lemma update_frame_range_absent h start end_ comp flag hs he :
  comps h !! match comp with Some c => c | None => get_current_comp h end = None ->
  update_frame_range start end_ comp flag hs he h = h.
Proof.
  intros Hc. unfold update_frame_range, comp_lock_and_undo_chunk.
  by rewrite !(on_comp_absent _ _ _ Hc).
Qed.

Lemma frame_range_attrs_dom start end_ flag hs he :
  dom (frame_range_attrs start end_ flag hs he) =
    if flag then {["COMPN_GlobalStart"; "COMPN_GlobalEnd";
                   "COMPN_RenderStart"; "COMPN_RenderEnd"]}
    else {["COMPN_GlobalStart"; "COMPN_GlobalEnd"]}.
Proof.
  unfold frame_range_attrs. destruct flag.
  - rewrite dom_union_L, !dom_insert_L, dom_empty_L.
    apply set_eq. intros x. set_unfold. tauto.
  - rewrite !dom_insert_L, dom_empty_L. apply set_eq. intros x. set_unfold. tauto.
Qed.

(** X3: [update_frame_range] changes nothing but the range attributes of
    the composition it addresses: the current composition stays current,
    the other compositions are as they were, the addressed one has its
    locks, undo depth and selection as before, and every attribute other
    than the global range (and the render range when the flag is set)
    keeps its value; without the flag the render range is left alone. *)
Theorem update_frame_range_frame
    (start end_ : Z) (comp : option comp_id) (flag : bool) (hs he : option Z)
    (h : fusion) (c : comp_id) (co : Comp) :
  c = match comp with Some c => c | None => get_current_comp h end ->
  comps h !! c = Some co ->
  let h' := update_frame_range start end_ comp flag hs he h in
  current_comp h' = current_comp h
  /\ (forall c', c' <> c -> comps h' !! c' = comps h !! c')
  /\ exists co', comps h' !! c = Some co'
       /\ locks co' = locks co /\ undo_depth co' = undo_depth co
       /\ selection co' = selection co
       /\ (forall key, key <> "COMPN_GlobalStart" -> key <> "COMPN_GlobalEnd" ->
             (flag = true -> key <> "COMPN_RenderStart" /\ key <> "COMPN_RenderEnd") ->
             attrs co' !! key = attrs co !! key).
Proof.
  intros Hc Hco h'. subst h'. rewrite (update_frame_range_on _ _ _ _ _ _ _ _ _ Hc Hco).
  split; [done|]. split.
  - intros c' Hne. cbn. by rewrite lookup_insert_ne.
  - eexists. split; [apply with_comp_lookup|]. repeat (split; [done|]).
    intros key H1 H2 H3. cbn. apply lookup_union_r.
    apply not_elem_of_dom. rewrite frame_range_attrs_dom.
    destruct flag; [destruct (H3 eq_refl)|]; set_unfold; tauto.
Qed.

Lemma update_frame_range_frame_witness :
  let h' := update_frame_range 1001 1100 None false (Some 8%Z) None demo_fusion in
  current_comp h' = 7
  /\ (forall c', c' <> 7 -> comps h' !! c' = comps demo_fusion !! c')
  /\ exists co', comps h' !! 7 = Some co'
       /\ locks co' = 0 /\ undo_depth co' = 0
       /\ selection co' = selection demo_comp
       /\ (forall key, key <> "COMPN_GlobalStart" -> key <> "COMPN_GlobalEnd" ->
             (false = true -> key <> "COMPN_RenderStart" /\ key <> "COMPN_RenderEnd") ->
             attrs co' !! key = attrs demo_comp !! key).
Proof.
  apply (update_frame_range_frame 1001 1100 None false (Some 8%Z) None
           demo_fusion 7 demo_comp); reflexivity.
Defined.

Lemma frame_range_attrs_covers s1 e1 f1 hs1 he1 s2 e2 f2 hs2 he2 (a : gmap string Z) :
  f2 = true \/ f1 = false ->
  frame_range_attrs s2 e2 f2 hs2 he2 ∪ (frame_range_attrs s1 e1 f1 hs1 he1 ∪ a) =
  frame_range_attrs s2 e2 f2 hs2 he2 ∪ a.
Proof.
  intros Hf. apply map_eq. intros key. rewrite !lookup_union.
  destruct (frame_range_attrs s2 e2 f2 hs2 he2 !! key) as [v|] eqn:H2.
  - by rewrite !(left_id_L None _) || by rewrite !union_Some_l.
  - rewrite !(left_id_L None _).
    apply not_elem_of_dom in H2. rewrite frame_range_attrs_dom in H2.
    assert (frame_range_attrs s1 e1 f1 hs1 he1 !! key = None) as ->.
    { apply not_elem_of_dom. rewrite frame_range_attrs_dom.
      destruct Hf as [-> | ->]; [destruct f1|destruct f2]; set_unfold; tauto. }
    by rewrite (left_id_L None _).
Qed.

(** X4: of two calls of [update_frame_range] on the same composition the
    second one decides, when it sets the render range or the first one did
    not: the host is as after the second call alone. In particular the
    call is idempotent. *)
Theorem update_frame_range_last_wins
    (s1 e1 s2 e2 : Z) (comp : option comp_id) (f1 f2 : bool)
    (hs1 he1 hs2 he2 : option Z) (h : fusion) :
  f2 = true \/ f1 = false ->
  update_frame_range s2 e2 comp f2 hs2 he2
    (update_frame_range s1 e1 comp f1 hs1 he1 h) =
  update_frame_range s2 e2 comp f2 hs2 he2 h.
Proof.
  intros Hf.
  set (c := match comp with Some c => c | None => get_current_comp h end).
  destruct (comps h !! c) as [co|] eqn:Hco.
  - rewrite (update_frame_range_on h c co s1 e1 comp f1 hs1 he1 eq_refl Hco).
    rewrite (update_frame_range_on
               (with_comp h c (SetAttrs (frame_range_attrs s1 e1 f1 hs1 he1) co))
               c _ s2 e2 comp f2 hs2 he2
               ltac:(by destruct comp) (with_comp_lookup _ _ _)).
    rewrite (update_frame_range_on h c co s2 e2 comp f2 hs2 he2 eq_refl Hco).
    rewrite with_comp_again. f_equal. unfold SetAttrs. cbn. f_equal.
    by apply frame_range_attrs_covers.
  - by rewrite (update_frame_range_absent h s1 e1 comp f1 hs1 he1 Hco).
Qed.

Lemma update_frame_range_last_wins_witness :
  update_frame_range 1 48 None true None None
    (update_frame_range 1001 1100 None false (Some 8%Z) (Some 8%Z) demo_fusion) =
  update_frame_range 1 48 None true None None demo_fusion.
Proof.
  apply (update_frame_range_last_wins 1001 1100 1 48 None false true
           (Some 8%Z) (Some 8%Z) None None demo_fusion). by left.
Defined.

(** ** [set_asset_framerange] *)

Lemma bind_run {S A B} (m : M S A) (k : A -> M S B) (s : S) :
  (m ≫= k) s =
    match m s with
    | (Ok a, s') => k a s'
    | (Raise e, s') => (Raise e, s')
    end.
Proof. reflexivity. Qed.

Lemma asset_data_field_Some (doc : asset_document) data field v :
  doc !! "data" = Some data -> data !! field = Some v ->
  asset_data_field (Some doc) field = Ok v.
Proof. intros Hd Hf. unfold asset_data_field, lookup_item. rewrite Hd. cbn. by rewrite Hf. Qed.

Lemma asset_data_field_missing (doc : asset_document) data field :
  doc !! "data" = Some data -> data !! field = None ->
  asset_data_field (Some doc) field = Raise (KeyError field).
Proof. intros Hd Hf. unfold asset_data_field, lookup_item. rewrite Hd. cbn. by rewrite Hf. Qed.

Ltac run_fields :=
  repeat (rewrite bind_run; unfold lift;
          cbn [modify mret M_ret ret raise]).

(** X5: with the four fields in the data of the asset, start and end being
    numbers, [set_asset_framerange] returns [None] and leaves the host as
    [update_frame_range] does with the render range flag set: on the
    current composition the global range is start minus handle to end plus
    handle, a handle that is [None] counting as 0, and the render range is
    start to end. *)
Theorem set_asset_framerange_applies
    (doc : asset_document) (data : gmap string (option Z))
    (start end_ : Z) (hs he : option Z) (h : fusion) (co : Comp) :
  doc !! "data" = Some data ->
  data !! "frameStart" = Some (Some start) ->
  data !! "frameEnd" = Some (Some end_) ->
  data !! "handleStart" = Some hs ->
  data !! "handleEnd" = Some he ->
  comps h !! get_current_comp h = Some co ->
  exists h' co',
    set_asset_framerange (Some doc) h = (Ok PNone, h')
    /\ h' = update_frame_range start end_ None true hs he h
    /\ comps h' !! get_current_comp h = Some co'
    /\ attrs co' !! "COMPN_GlobalStart" = Some (start - or_zero hs)%Z
    /\ attrs co' !! "COMPN_GlobalEnd" = Some (end_ + or_zero he)%Z
    /\ attrs co' !! "COMPN_RenderStart" = Some start
    /\ attrs co' !! "COMPN_RenderEnd" = Some end_.
Proof.
  intros Hd Hs He Hhs Hhe Hco. do 2 eexists. split.
  - unfold set_asset_framerange. run_fields.
    rewrite (asset_data_field_Some _ _ _ _ Hd Hs). run_fields.
    rewrite (asset_data_field_Some _ _ _ _ Hd He). run_fields.
    rewrite (asset_data_field_Some _ _ _ _ Hd Hhs). run_fields.
    rewrite (asset_data_field_Some _ _ _ _ Hd Hhe). run_fields. reflexivity.
  - split; [reflexivity|].
    rewrite (update_frame_range_on h _ co start end_ None true hs he eq_refl Hco).
    split; [apply with_comp_lookup|]. cbn. unfold frame_range_attrs.
    repeat split; by simplify_map_eq.
Qed.

Lemma set_asset_framerange_applies_witness :
  exists h' co',
    set_asset_framerange (Some demo_asset_doc) demo_fusion = (Ok PNone, h')
    /\ h' = update_frame_range 1001 1100 None true (Some 8%Z) None demo_fusion
    /\ comps h' !! 7 = Some co'
    /\ attrs co' !! "COMPN_GlobalStart" = Some 993%Z
    /\ attrs co' !! "COMPN_GlobalEnd" = Some 1100%Z
    /\ attrs co' !! "COMPN_RenderStart" = Some 1001%Z
    /\ attrs co' !! "COMPN_RenderEnd" = Some 1100%Z.
Proof.
  apply (set_asset_framerange_applies demo_asset_doc
           (default ∅ (demo_asset_doc !! "data")) 1001 1100 (Some 8%Z) None
           demo_fusion demo_comp); reflexivity.
Defined.

(** X6: [set_asset_framerange] is all or nothing: whenever it raises, the
    host is as it was. Without an asset document it raises [TypeError],
    without ["data"] the [KeyError] of ["data"]; a missing field is
    reported before anything is computed, so a missing ["handleEnd"] gives
    its [KeyError] even when the start is [None]; with the four fields
    there, a start or an end that is [None] gives [TypeError]. *)
Theorem set_asset_framerange_raises (asset_doc : option asset_document) (h : fusion) :
  (forall e h', set_asset_framerange asset_doc h = (Raise e, h') -> h' = h)
  /\ (asset_doc = None -> set_asset_framerange asset_doc h = (Raise TypeError, h))
  /\ (forall doc, asset_doc = Some doc -> doc !! "data" = None ->
        set_asset_framerange asset_doc h = (Raise (KeyError "data"), h))
  /\ (forall doc data start end_ hs,
        asset_doc = Some doc -> doc !! "data" = Some data ->
        data !! "frameStart" = Some start -> data !! "frameEnd" = Some end_ ->
        data !! "handleStart" = Some hs -> data !! "handleEnd" = None ->
        set_asset_framerange asset_doc h = (Raise (KeyError "handleEnd"), h))
  /\ (forall doc data start end_ hs he,
        asset_doc = Some doc -> doc !! "data" = Some data ->
        data !! "frameStart" = Some start -> data !! "frameEnd" = Some end_ ->
        data !! "handleStart" = Some hs -> data !! "handleEnd" = Some he ->
        start = None \/ end_ = None ->
        set_asset_framerange asset_doc h = (Raise TypeError, h)).
Proof.
  split; [|split; [|split; [|split]]].
  - intros e h'. unfold set_asset_framerange. run_fields.
    repeat (match goal with
            | |- context [asset_data_field ?d ?f] =>
                destruct (asset_data_field d f) as [[?|]|?]
            end; run_fields); by intros [= <- <-] || by intros [= <-].
  - intros ->. reflexivity.
  - intros doc -> Hd. unfold set_asset_framerange, asset_data_field, lookup_item.
    run_fields. by rewrite Hd.
  - intros doc data start end_ hs -> Hd Hs He Hhs Hhe.
    unfold set_asset_framerange. run_fields.
    rewrite (asset_data_field_Some _ _ _ _ Hd Hs). run_fields.
    rewrite (asset_data_field_Some _ _ _ _ Hd He). run_fields.
    rewrite (asset_data_field_Some _ _ _ _ Hd Hhs). run_fields.
    by rewrite (asset_data_field_missing _ _ _ Hd Hhe).
  - intros doc data start end_ hs he -> Hd Hs He Hhs Hhe Hnone.
    unfold set_asset_framerange. run_fields.
    rewrite (asset_data_field_Some _ _ _ _ Hd Hs). run_fields.
    rewrite (asset_data_field_Some _ _ _ _ Hd He). run_fields.
    rewrite (asset_data_field_Some _ _ _ _ Hd Hhs). run_fields.
    rewrite (asset_data_field_Some _ _ _ _ Hd Hhe). run_fields.
    destruct Hnone as [-> | ->]; [done|by destruct start].
Qed.

Lemma set_asset_framerange_raises_witness :
  set_asset_framerange (Some unset_asset_doc) demo_fusion = (Raise TypeError, demo_fusion).
Proof.
  apply (proj2 (proj2 (proj2 (proj2
           (set_asset_framerange_raises (Some unset_asset_doc) demo_fusion))))
           unset_asset_doc unset_asset_data None (Some 5%Z) None None);
    try reflexivity. by left.
Defined.

(** ** [set_asset_resolution] *)

(** X7: with width and height in the data of the asset,
    [set_asset_resolution] returns [None], prints one line formatted with
    the two values, and sets the two frame format preferences of the
    current composition; its other preferences, the preferences of the
    other compositions and the running Fusion (attributes, locks,
    selection) are as they were. *)
Theorem set_asset_resolution_sets
    (doc : asset_document) (data : gmap string (option Z))
    (width height : option Z) (st : studio) :
  doc !! "data" = Some data ->
  data !! "resolutionWidth" = Some width ->
  data !! "resolutionHeight" = Some height ->
  exists st',
    set_asset_resolution (Some doc) st = (Ok PNone, st')
    /\ running st' = running st
    /\ printed st' = printed st ++
         [Fmt "Setting comp frame format resolution to {}x{}"
              [py_number width; py_number height]]
    /\ (forall c, c <> get_current_comp (running st) -> prefs st' !! c = prefs st !! c)
    /\ exists p, prefs st' !! get_current_comp (running st) = Some p
         /\ p !! "Comp.FrameFormat.Width" = Some width
         /\ p !! "Comp.FrameFormat.Height" = Some height
         /\ forall key, key <> "Comp.FrameFormat.Width" ->
              key <> "Comp.FrameFormat.Height" ->
              p !! key = default ∅ (prefs st !! get_current_comp (running st)) !! key.
Proof.
  intros Hd Hw Hh. eexists. split.
  - unfold set_asset_resolution. run_fields.
    rewrite (asset_data_field_Some _ _ _ _ Hd Hw). run_fields.
    rewrite (asset_data_field_Some _ _ _ _ Hd Hh). run_fields. reflexivity.
  - cbn. split; [done|]. split; [done|]. split.
    + intros c Hc. by rewrite lookup_insert_ne.
    + eexists. split; [apply lookup_insert_eq|].
      split; [by simplify_map_eq|]. split; [by simplify_map_eq|].
      intros key H1 H2. rewrite lookup_union_r; [done|]. by simplify_map_eq.
Qed.

Lemma set_asset_resolution_sets_witness :
  exists st',
    set_asset_resolution (Some demo_asset_doc) demo_studio = (Ok PNone, st')
    /\ running st' = demo_fusion
    /\ printed st' = [] ++
         [Fmt "Setting comp frame format resolution to {}x{}"
              [PInt 1920; PInt 1080]]
    /\ (forall c, c <> 7 -> prefs st' !! c = prefs demo_studio !! c)
    /\ exists p, prefs st' !! 7 = Some p
         /\ p !! "Comp.FrameFormat.Width" = Some (Some 1920%Z)
         /\ p !! "Comp.FrameFormat.Height" = Some (Some 1080%Z)
         /\ forall key, key <> "Comp.FrameFormat.Width" ->
              key <> "Comp.FrameFormat.Height" ->
              p !! key = default ∅ (prefs demo_studio !! 7) !! key.
Proof.
  apply (set_asset_resolution_sets demo_asset_doc
           (default ∅ (demo_asset_doc !! "data")) (Some 1920%Z) (Some 1080%Z)
           demo_studio); reflexivity.
Defined.

(** X8: when [set_asset_resolution] raises, nothing was printed and no
    preference was set; a missing height is a [KeyError] although the
    width was read. *)
Theorem set_asset_resolution_raises (asset_doc : option asset_document) (st : studio) :
  (forall e st', set_asset_resolution asset_doc st = (Raise e, st') -> st' = st)
  /\ (forall doc data width,
        asset_doc = Some doc -> doc !! "data" = Some data ->
        data !! "resolutionWidth" = Some width ->
        data !! "resolutionHeight" = None ->
        set_asset_resolution asset_doc st = (Raise (KeyError "resolutionHeight"), st)).
Proof.
  split.
  - intros e st'. unfold set_asset_resolution. run_fields.
    repeat (match goal with
            | |- context [asset_data_field ?d ?f] =>
                destruct (asset_data_field d f) as [?|?]
            end; run_fields); by intros [= <- <-] || by intros [= <-].
  - intros doc data width -> Hd Hw Hh. unfold set_asset_resolution. run_fields.
    rewrite (asset_data_field_Some _ _ _ _ Hd Hw). run_fields.
    unfold asset_data_field, lookup_item. rewrite Hd. cbn. by rewrite Hh.
Qed.

Lemma set_asset_resolution_raises_witness :
  set_asset_resolution (Some heightless_asset_doc) demo_studio =
    (Raise (KeyError "resolutionHeight"), demo_studio).
Proof.
  apply (proj2 (set_asset_resolution_raises (Some heightless_asset_doc)
                  demo_studio)
           heightless_asset_doc heightless_asset_data (Some 1920%Z));
    reflexivity.
Defined.

(** ** More on [maintained_selection] *)

Lemma with_comp_same h c co : comps h !! c = Some co -> with_comp h c co = h.
Proof.
  intros Hco. unfold with_comp. destruct h as [cs cur]. cbn in *.
  by rewrite insert_id.
Qed.

Lemma with_selection_same co : with_selection co (selection co) = co.
Proof. by destruct co. Qed.

(** X10: a body that changes nothing but the selection of the current
    composition leaves no trace: after the scope the host is exactly the
    host before it, whether the body returned or raised. *)
Theorem maintained_selection_undoes_selecting {A} (body : M fusion A)
    (h : fusion) (r : result A) (co : Comp) (s : gset tool) :
  comps h !! get_current_comp h = Some co ->
  body h = (r, with_comp h (get_current_comp h) (with_selection co s)) ->
  maintained_selection body h = (r, h).
Proof.
  intros Hco Hbody. unfold maintained_selection, try_finally.
  rewrite Hco, Hbody. unfold GetToolList_selected.
  rewrite (restore_selection_on _ _ _ _ (with_comp_lookup _ _ _)), with_comp_again.
  f_equal. unfold with_selection at 1. cbn [attrs locks undo_depth with_selection].
  change {| attrs := attrs co; locks := locks co; undo_depth := undo_depth co;
            selection := selection co |} with (with_selection co (selection co)).
  by rewrite with_selection_same, with_comp_same.
Qed.

Lemma maintained_selection_undoes_selecting_witness :
  maintained_selection demo_body demo_fusion = (Raise TypeError, demo_fusion).
Proof.
  apply (maintained_selection_undoes_selecting demo_body demo_fusion
           (Raise TypeError) demo_comp {[11]}); reflexivity.
Defined.

(** X11: a scope inside a scope is one scope: nesting
    [maintained_selection] gives the outcome and the host of a single
    one. *)
Theorem maintained_selection_nested {A} (body : M fusion A)
    (h h1 : fusion) (r : result A) (co co1 : Comp) :
  comps h !! get_current_comp h = Some co ->
  body h = (r, h1) ->
  comps h1 !! get_current_comp h = Some co1 ->
  maintained_selection (maintained_selection body) h = maintained_selection body h.
Proof.
  intros Hco Hbody Hco1.
  assert (Hone : maintained_selection body h =
    (r, with_comp h1 (get_current_comp h) (with_selection co1 (selection co)))).
  { unfold maintained_selection, try_finally.
    rewrite Hco, Hbody. unfold GetToolList_selected.
    by rewrite (restore_selection_on _ _ _ _ Hco1). }
  unfold maintained_selection at 1. unfold try_finally.
  rewrite Hco, Hone. unfold GetToolList_selected.
  rewrite (restore_selection_on _ _ _ _ (with_comp_lookup _ _ _)), with_comp_again.
  reflexivity.
Qed.

Lemma maintained_selection_nested_witness :
  maintained_selection (maintained_selection demo_body) demo_fusion =
    maintained_selection demo_body demo_fusion.
Proof.
  apply (maintained_selection_nested demo_body demo_fusion
           (snd (demo_body demo_fusion)) (Raise TypeError)
           demo_comp (with_selection demo_comp {[11]})); reflexivity.
Defined.

(** ** More on [switch_item] *)

Section SwitchItemEdges.

Context (cl : Client).

Ltac run_calls :=
  unfold find_new_one, collect_names, call_active_project,
    call_get_representation_by_id, call_get_representation_parents,
    call_get_asset_by_name, call_get_subset_by_name,
    call_get_last_version_by_subset_id, call_get_representation_by_name,
    call_switch_container, container_getitem, lift;
  repeat (first
    [ rewrite mbind_run
    | progress cbn [log modify mret M_ret ret raise assert_doc logged container calls] ]).

Ltac close_log :=
  unfold logged; cbn [container calls]; rewrite <- ?app_assoc; cbn [app]; reflexivity.

(** X12: with the three names truthy, [switch_item] reads nothing of the
    current representation: after asking for the active project it goes to
    the four lookups with the names as given. *)
Theorem switch_item_all_names (a s r : pyval) (w : world) :
  truthy a = true -> truthy s = true -> truthy r = true ->
  switch_item cl a s r w =
    find_new_one cl (active_project cl) a s r (logged w [ActiveProject]).
Proof.
  intros Ha Hs Hr. unfold switch_item, collect_names, falsy. cbn [forallb existsb].
  rewrite Ha, Hs, Hr. cbn [negb andb orb]. unfold call_active_project.
  repeat (rewrite mbind_run; cbn [log modify mret M_ret ret]). reflexivity.
Qed.

(** X13: when the asset name or the subset name is [None] and the current
    representation has no parents to be found, [switch_item] raises
    [TypeError] (it subscripts [None]) after the two lineage reads; no
    lookup by name is made and the container is as it was. *)
Theorem switch_item_without_lineage (a s r : pyval) (w : world) (repre_id : pyval) :
  forallb falsy [a; s; r] = false ->
  a = PNone \/ s = PNone ->
  container w !! "representation" = Some repre_id ->
  get_representation_parents cl
    (get_representation_by_id cl (active_project cl) repre_id) = None ->
  switch_item cl a s r w =
    (Raise TypeError,
     logged w [ActiveProject;
               GetRepresentationById (active_project cl) repre_id;
               GetRepresentationParents
                 (get_representation_by_id cl (active_project cl) repre_id)]).
Proof.
  intros Hall Hnone Hid Hparents. unfold switch_item. rewrite Hall.
  assert (existsb falsy [a; s; r] = true) as Hany.
  { destruct Hnone as [-> | ->]; cbn; [done|]. by rewrite orb_true_r. }
  run_calls. rewrite Hany. run_calls. rewrite (getitem_Some _ _ _ Hid).
  run_calls. rewrite Hparents.
  destruct Hnone as [-> | ->]; cbn [is_None subscript].
  - run_calls. close_log.
  - destruct (is_None a); run_calls; close_log.
Qed.

(** X14: when a name has to be collected and the container has no
    ["representation"], [switch_item] raises the [KeyError] of that key;
    only the active project was asked for. *)
Theorem switch_item_unbound_container (a s r : pyval) (w : world) :
  forallb falsy [a; s; r] = false ->
  existsb falsy [a; s; r] = true ->
  container w !! "representation" = None ->
  switch_item cl a s r w =
    (Raise (KeyError "representation"), logged w [ActiveProject]).
Proof.
  intros Hall Hany Hid. unfold switch_item. rewrite Hall.
  run_calls. rewrite Hany. run_calls. by rewrite (getitem_None _ _ Hid).
Qed.

(** X15: when only the representation name is [None], it is taken from
    the current representation of the container, and the parents of that
    representation are not needed: whatever [get_representation_parents]
    returns, the lookups are made with the given asset and subset names
    and that representation name. *)
Theorem switch_item_representation_only (a s : pyval) (w : world)
    (repre_id : pyval) (repre : dict) (rn : pyval) :
  truthy a = true -> truthy s = true ->
  container w !! "representation" = Some repre_id ->
  get_representation_by_id cl (active_project cl) repre_id = Some repre ->
  repre !! "name" = Some rn ->
  switch_item cl a s PNone w =
    find_new_one cl (active_project cl) a s rn
      (logged w [ActiveProject;
                 GetRepresentationById (active_project cl) repre_id;
                 GetRepresentationParents (Some repre)]).
Proof.
  intros Ha Hs Hid Hrepre Hrn. unfold switch_item, falsy.
  cbn [forallb]. rewrite Ha. cbn [negb andb].
  unfold collect_names, falsy. cbn [existsb truthy]. rewrite Ha, Hs. cbn [negb orb].
  unfold call_active_project, container_getitem, call_get_representation_by_id,
    call_get_representation_parents, lift.
  repeat (rewrite mbind_run; cbn [log modify mret M_ret ret container]).
  rewrite (getitem_Some _ _ _ Hid).
  repeat (rewrite mbind_run; cbn [log modify mret M_ret ret container]).
  rewrite Hrepre.
  assert (is_None a = false) as -> by (by destruct a).
  assert (is_None s = false) as -> by (by destruct s).
  cbn [is_None subscript]. rewrite (getitem_Some _ _ _ Hrn).
  destruct (get_representation_parents cl (Some repre)) as [[[[v sub] asset] proj]|];
    repeat (rewrite mbind_run; cbn [log modify mret M_ret ret container]);
    f_equal; close_log.
Qed.

(** X16: an asset lookup that returns an empty document fails the
    assertion like one that returns [None]; one that returns a document
    without ["_id"] raises the [KeyError] of ["_id"]. In both cases no
    further lookup is made. *)
Theorem find_new_one_bad_asset (p an sn rn : pyval) (w : world) (asset : dict) :
  get_asset_by_name cl p an = Some asset ->
  (asset = ∅ ->
   find_new_one cl p an sn rn w =
     (Raise (AssertionError
        (Fmt "Could not find asset in the database with the name '%s'" [an])),
      logged w [GetAssetByName p an]))
  /\ (asset <> ∅ -> asset !! "_id" = None ->
      find_new_one cl p an sn rn w =
        (Raise (KeyError "_id"), logged w [GetAssetByName p an])).
Proof.
  intros Ha. split.
  - intros Hempty. run_calls. rewrite Ha. cbn [assert_doc]. unfold truthy_doc.
    by rewrite bool_decide_eq_true_2.
  - intros Hne Hid. run_calls. rewrite Ha. cbn [assert_doc]. unfold truthy_doc.
    rewrite bool_decide_eq_false_2 by done. cbn [negb]. run_calls.
    by rewrite (getitem_None _ _ Hid).
Qed.

End SwitchItemEdges.

Lemma switch_item_all_names_witness :
  switch_item demo_client (PStr "hero") (PStr "modelMain") (PStr "ma") demo_world =
    find_new_one demo_client (PStr "demo") (PStr "hero") (PStr "modelMain") (PStr "ma")
      (logged demo_world [ActiveProject]).
Proof.
  apply (switch_item_all_names demo_client (PStr "hero") (PStr "modelMain") (PStr "ma")
           demo_world); reflexivity.
Defined.

Lemma switch_item_without_lineage_witness :
  switch_item demo_client PNone (PStr "rigMain") (PStr "abc")
      {| container := <["representation" := PStr "r-gone"]> ∅; calls := [] |} =
    (Raise TypeError,
     {| container := <["representation" := PStr "r-gone"]> ∅;
        calls := [ActiveProject;
                  GetRepresentationById (PStr "demo") (PStr "r-gone");
                  GetRepresentationParents None] |}).
Proof.
  etrans.
  - apply (switch_item_without_lineage demo_client PNone (PStr "rigMain") (PStr "abc")
             {| container := <["representation" := PStr "r-gone"]> ∅; calls := [] |}
             (PStr "r-gone")); try reflexivity. by left.
  - reflexivity.
Defined.

Lemma switch_item_unbound_container_witness :
  switch_item demo_client PNone (PStr "rigMain") PNone
      {| container := ∅; calls := [] |} =
    (Raise (KeyError "representation"),
     {| container := ∅; calls := [ActiveProject] |}).
Proof.
  apply (switch_item_unbound_container demo_client PNone (PStr "rigMain") PNone
           {| container := ∅; calls := [] |}); reflexivity.
Defined.

Lemma switch_item_representation_only_witness :
  switch_item demo_client (PStr "hero") (PStr "modelMain") PNone demo_world =
    find_new_one demo_client (PStr "demo") (PStr "hero") (PStr "modelMain") (PStr "abc")
      (logged demo_world
         [ActiveProject;
          GetRepresentationById (PStr "demo") (PStr "r-abc");
          GetRepresentationParents (Some (doc_of "r-abc" "abc"))]).
Proof.
  apply (switch_item_representation_only demo_client (PStr "hero") (PStr "modelMain")
           demo_world (PStr "r-abc") (doc_of "r-abc" "abc") (PStr "abc"));
    reflexivity.
Defined.

Lemma find_new_one_bad_asset_witness :
  find_new_one nameless_client
    (PStr "demo") (PStr "hero") (PStr "modelMain") (PStr "abc") demo_world =
  (Raise (KeyError "_id"), logged demo_world [GetAssetByName (PStr "demo") (PStr "hero")]).
Proof.
  apply (proj2 (find_new_one_bad_asset nameless_client (PStr "demo") (PStr "hero")
           (PStr "modelMain") (PStr "abc") demo_world (<["name" := PStr "hero"]> ∅)
           eq_refl)); [|reflexivity].
  apply (lookup_nonempty _ "name" (PStr "hero")). reflexivity.
Defined.

(** ** More on [ValidateInstanceHasMembers] *)

Section ValidatorEdges.

Import ValidateInstanceHasMembers.

(** X17: without ["setMembers"] in the data of the instance, [get_invalid]
    and [process] raise its [KeyError]; the name is read only when the
    members are falsy: with falsy members and no ["name"] both raise the
    [KeyError] of ["name"], with truthy members and no ["name"] [process]
    passes. The invalid list never has more than one element. *)
Theorem process_missing_keys (instance : Instance) :
  (data instance !! "setMembers" = None ->
   get_invalid instance = Raise (KeyError "setMembers")
   /\ process instance = Raise (KeyError "setMembers"))
  /\ (forall members,
        data instance !! "setMembers" = Some members -> truthy members = false ->
        data instance !! "name" = None ->
        get_invalid instance = Raise (KeyError "name")
        /\ process instance = Raise (KeyError "name"))
  /\ (forall members,
        data instance !! "setMembers" = Some members -> truthy members = true ->
        data instance !! "name" = None ->
        process instance = Ok PNone)
  /\ (forall invalid, get_invalid instance = Ok invalid -> length invalid <= 1).
Proof.
  split; [|split; [|split]].
  - intros Hm. unfold process, get_invalid, getitem. by rewrite Hm.
  - intros members Hm Ht Hn. unfold process.
    rewrite (get_invalid_unfold _ _ Hm), Ht, Hn. done.
  - intros members Hm Ht Hn. unfold process.
    by rewrite (get_invalid_unfold _ _ Hm), Ht.
  - intros invalid. unfold get_invalid, getitem.
    destruct (data instance !! "setMembers") as [m|]; cbn; [|done].
    destruct (truthy m); cbn; [by intros [= <-]; cbn; lia|].
    destruct (data instance !! "name"); cbn; [|done]. intros [= <-]. cbn. lia.
Qed.

End ValidatorEdges.

Lemma process_missing_keys_witness :
  ValidateInstanceHasMembers.process {| data := <["setMembers" := PList []]> ∅ |} =
    Raise (KeyError "name")
  /\ ValidateInstanceHasMembers.process
       {| data := <["setMembers" := PList [PStr "pCube1"]]> ∅ |} = Ok PNone.
Proof.
  split.
  - apply (proj1 (proj2 (process_missing_keys
             {| data := <["setMembers" := PList []]> ∅ |})) (PList [])); reflexivity.
  - apply (proj1 (proj2 (proj2 (process_missing_keys
             {| data := <["setMembers" := PList [PStr "pCube1"]]> ∅ |})))
             (PList [PStr "pCube1"])); reflexivity.
Defined.

(** ** [get_additional_data] *)

Section AdditionalDataFacts.

Context {F : Type}.

(** X9: for a container with its tool, [get_additional_data] returns the
    empty dict when the tool has no tile colour, the dict with the single
    key ["color"] built from the three channels when it has one, and the
    [KeyError] of the first channel that is missing, in the order R, G,
    B. *)
Theorem get_additional_data_color
    (container : gmap string (@FusionTool F)) (tool : FusionTool) :
  container !! "_tool" = Some tool ->
  (TileColor tool = None -> get_additional_data container = Ok ∅)
  /\ (forall tile r g b,
        TileColor tool = Some tile ->
        tile !! "R" = Some r -> tile !! "G" = Some g -> tile !! "B" = Some b ->
        get_additional_data container = Ok (<["color" := fromRgbF r g b]> ∅))
  /\ (forall tile, TileColor tool = Some tile ->
        (tile !! "R" = None ->
         get_additional_data container = Raise (KeyError "R"))
        /\ (is_Some (tile !! "R") -> tile !! "G" = None ->
            get_additional_data container = Raise (KeyError "G"))
        /\ (is_Some (tile !! "R") -> is_Some (tile !! "G") -> tile !! "B" = None ->
            get_additional_data container = Raise (KeyError "B"))).
Proof.
  intros Ht. unfold get_additional_data. cbn. rewrite Ht. cbn.
  split; [|split].
  - by intros ->.
  - intros tile r g b -> Hr Hg Hb. cbn. by rewrite Hr, Hg, Hb.
  - intros tile ->. cbn. split; [|split].
    + by intros ->.
    + intros [r ->] ->. done.
    + intros [r ->] [g ->] ->. done.
Qed.

End AdditionalDataFacts.

Lemma get_additional_data_color_witness :
  get_additional_data greenless_container = Raise (KeyError "G").
Proof.
  apply (proj2 (proj2 (get_additional_data_color greenless_container
                  {| TileColor := Some greenless_tile |} ltac:(reflexivity)))
           greenless_tile ltac:(reflexivity));
    [by eexists | reflexivity].
Defined.

(** ** [CreateModel.process] *)

Section CreateModelFacts.

Import CreateModel.

Context (env : Env).

Lemma brun {A B} (m : M blender A) (k : A -> M blender B) w :
  (m ≫= k) w =
    match m w with
    | (Ok a, w') => k a w'
    | (Raise e, w') => (Raise e, w')
    end.
Proof. reflexivity. Qed.

Lemma for_each_links (c : coll) (l : list obj) (w : blender) :
  for_each l (fun o => blog (ObjectsLink c o)) w =
    (Ok tt, {| self_data := self_data w; made := made w;
               bcalls := bcalls w ++ map (ObjectsLink c) l |}).
Proof.
  revert w. induction l as [|o l IH]; intros w.
  - cbn. rewrite app_nil_r. by destruct w.
  - cbn [for_each]. rewrite brun. cbn [blog modify]. rewrite IH. cbn.
    by rewrite <- app_assoc.
Qed.

(** The whole run of [process] when the two keys are there. *)
Lemma create_model_run (w : blender) (asset subset : pyval) :
  self_data w !! "asset" = Some asset ->
  self_data w !! "subset" = Some subset ->
  let data := <["task" := dict_get (Session env) "AVALON_TASK"]> (self_data w) in
  process env w =
    (Ok (made w),
     {| self_data := data; made := S (made w);
        bcalls := bcalls w ++
          [CollectionsNew (asset_name env asset subset);
           ChildrenLink (made w); Imprint (made w) data] ++
          (if truthy (dict_get (or_empty (options env)) "useSelection")
           then map (ObjectsLink (made w)) (get_selection env) else []) |}).
Proof.
  intros Ha Hs data. unfold process, self_getitem, self_setitem, collections_new.
  rewrite brun, (getitem_Some _ _ _ Ha).
  rewrite brun, (getitem_Some _ _ _ Hs).
  repeat (rewrite brun; cbn [blog modify mret M_ret ret self_data made bcalls]).
  destruct (truthy _).
  - rewrite for_each_links.
    cbn [blog modify mret M_ret ret self_data made bcalls].
    f_equal. f_equal. by rewrite <- !app_assoc.
  - cbn [blog modify mret M_ret ret self_data made bcalls].
    f_equal. f_equal. by rewrite <- !app_assoc.
Qed.

(** X18: [CreateModel.process] raises only for a missing ["asset"] or
    ["subset"] in [self.data], ["asset"] being read first, and then it has
    made no collection, no call on the host and no change to
    [self.data]. *)
Theorem create_model_missing_key (w : blender) :
  (self_data w !! "asset" = None -> process env w = (Raise (KeyError "asset"), w))
  /\ (is_Some (self_data w !! "asset") -> self_data w !! "subset" = None ->
      process env w = (Raise (KeyError "subset"), w))
  /\ (forall e w', process env w = (Raise e, w') ->
        w' = w /\ (e = KeyError "asset" \/ e = KeyError "subset")).
Proof.
  split; [|split].
  - intros Ha. unfold process, self_getitem. by rewrite brun, (getitem_None _ _ Ha).
  - intros [a Ha] Hs. unfold process, self_getitem.
    by rewrite brun, (getitem_Some _ _ _ Ha), brun, (getitem_None _ _ Hs).
  - intros e w'.
    destruct (self_data w !! "asset") as [a|] eqn:Ha.
    + destruct (self_data w !! "subset") as [s|] eqn:Hs.
      * by rewrite (create_model_run w a s Ha Hs).
      * unfold process, self_getitem.
        rewrite brun, (getitem_Some _ _ _ Ha), brun, (getitem_None _ _ Hs).
        intros [= <- <-]. auto.
    + unfold process, self_getitem. rewrite brun, (getitem_None _ _ Ha).
      intros [= <- <-]. auto.
Qed.

(** X19: with the two keys there, [CreateModel.process] returns the new
    collection, makes it under the name that [asset_name] gives, links it
    into the scene and imprints it with [self.data] as it is after
    ["task"] was set to the task of the session ([None] when the session
    has none); the other entries of [self.data] are unchanged. *)
Theorem create_model_imprints_task (w : blender) (asset subset : pyval) :
  self_data w !! "asset" = Some asset ->
  self_data w !! "subset" = Some subset ->
  exists w' after,
    process env w = (Ok (made w), w')
    /\ made w' = S (made w)
    /\ self_data w' = <["task" := dict_get (Session env) "AVALON_TASK"]> (self_data w)
    /\ bcalls w' = bcalls w ++
         [CollectionsNew (asset_name env asset subset);
          ChildrenLink (made w);
          Imprint (made w) (self_data w')] ++ after
    /\ (Session env !! "AVALON_TASK" = None -> self_data w' !! "task" = Some PNone)
    /\ (forall key, key <> "task" -> self_data w' !! key = self_data w !! key).
Proof.
  intros Ha Hs. do 2 eexists.
  split; [apply (create_model_run w asset subset Ha Hs)|].
  cbn. split; [done|]. split; [done|]. split; [done|]. split.
  - intros Hnone. unfold dict_get. rewrite Hnone. apply lookup_insert_eq.
  - intros key Hkey. by rewrite lookup_insert_ne.
Qed.

(** X20: [CreateModel.process] returns the collection that it has just
    made, and after making, linking and imprinting it, the calls that it
    makes are these and no other: when [options["useSelection"]] is
    truthy, one link into that collection for every selected object, in
    their order; none when the options are [None], lack the key or hold a
    falsy value. *)
Theorem create_model_links_selection (w : blender) (asset subset : pyval) :
  self_data w !! "asset" = Some asset ->
  self_data w !! "subset" = Some subset ->
  exists w' links,
    process env w = (Ok (made w), w')
    /\ bcalls w' = bcalls w ++
         [CollectionsNew (asset_name env asset subset);
          ChildrenLink (made w);
          Imprint (made w) (self_data w')] ++ links
    /\ (forall d v, options env = Some d -> d !! "useSelection" = Some v ->
          truthy v = true ->
          links = map (ObjectsLink (made w)) (get_selection env))
    /\ (options env = None -> links = [])
    /\ (forall d, options env = Some d -> d !! "useSelection" = None -> links = [])
    /\ (forall d v, options env = Some d -> d !! "useSelection" = Some v ->
          truthy v = false -> links = []).
Proof.
  intros Ha Hs. do 2 eexists.
  split; [apply (create_model_run w asset subset Ha Hs)|].
  cbn [bcalls self_data]. split; [reflexivity|].
  split; [|split; [|split]].
  - intros d v Ho Hv Ht. rewrite Ho. unfold or_empty, truthy_doc, dict_get.
    rewrite bool_decide_eq_false_2 by (by intros ->; rewrite lookup_empty in Hv).
    cbn [negb]. by rewrite Hv, Ht.
  - intros ->. reflexivity.
  - intros d Ho Hv. rewrite Ho. unfold or_empty, truthy_doc, dict_get.
    case_bool_decide; cbn [negb]; [reflexivity|]. by rewrite Hv.
  - intros d v Ho Hv Ht. rewrite Ho. unfold or_empty, truthy_doc, dict_get.
    case_bool_decide; cbn [negb]; [reflexivity|]. by rewrite Hv, Ht.
Qed.

End CreateModelFacts.

Lemma create_model_missing_key_witness :
  CreateModel.process demo_env
    {| CreateModel.self_data := <["asset" := PStr "hero"]> ∅;
       CreateModel.made := 0; CreateModel.bcalls := [] |} =
  (Raise (KeyError "subset"),
   {| CreateModel.self_data := <["asset" := PStr "hero"]> ∅;
      CreateModel.made := 0; CreateModel.bcalls := [] |}).
Proof.
  apply (proj1 (proj2 (create_model_missing_key demo_env _))); [by eexists | reflexivity].
Defined.

Lemma create_model_imprints_task_witness :
  exists w' after,
    CreateModel.process demo_env demo_blender = (Ok 2, w')
    /\ CreateModel.made w' = 3
    /\ CreateModel.self_data w' =
         <["task" := PStr "modeling"]> (CreateModel.self_data demo_blender)
    /\ CreateModel.bcalls w' = [] ++
         [CreateModel.CollectionsNew (PList [PStr "hero"; PStr "_"; PStr "modelMain"]);
          CreateModel.ChildrenLink 2;
          CreateModel.Imprint 2 (CreateModel.self_data w')] ++ after
    /\ (CreateModel.Session demo_env !! "AVALON_TASK" = None ->
        CreateModel.self_data w' !! "task" = Some PNone)
    /\ (forall key, key <> "task" ->
        CreateModel.self_data w' !! key = CreateModel.self_data demo_blender !! key).
Proof.
  apply (create_model_imprints_task demo_env demo_blender (PStr "hero") (PStr "modelMain"));
    reflexivity.
Defined.

Lemma create_model_links_selection_witness :
  exists w' links,
    CreateModel.process demo_env demo_blender = (Ok 2, w')
    /\ CreateModel.bcalls w' = [] ++
         [CreateModel.CollectionsNew (PList [PStr "hero"; PStr "_"; PStr "modelMain"]);
          CreateModel.ChildrenLink 2;
          CreateModel.Imprint 2 (CreateModel.self_data w')] ++ links
    /\ links = [CreateModel.ObjectsLink 2 4; CreateModel.ObjectsLink 2 9].
Proof.
  destruct (create_model_links_selection demo_env demo_blender
              (PStr "hero") (PStr "modelMain") eq_refl eq_refl)
    as (w' & links & Hrun & Hcalls & Hlinks & _).
  exists w', links. split; [exact Hrun|]. split; [exact Hcalls|].
  apply (Hlinks (<["useSelection" := PBool true]> ∅) (PBool true)); reflexivity.
Defined.
